(** * Year rollover of a GnuCash book: opening transactions

    A shallow embedding of [create_new_year_including_opening_transactions.py]
    and the properties of its three parts: the balance extractor
    ([get_account_balances]), the rollover preparer ([prepare_new_year_file])
    and the opening transaction synthesizer (the body of [main]).

    The GnuCash bindings are an external collaborator.  Their objects are
    modelled by plain data: an account tree, a list of transactions that own
    their splits, the splits that have no parent transaction, a commodity
    table and a price database. *)

From Stdlib Require Import QArith Qcanon.
From stdpp Require Import base option list strings gmap.

Set Default Proof Using "Type".
Local Open Scope Z_scope.
Local Open Scope Qc_scope.
Local Open Scope string_scope.
Local Open Scope list_scope.
Local Open Scope stdpp_scope.

(** ** Values of the bindings *)

(** [GncNumeric]: an exact rational number. *)
Abbreviation GncNumeric := Qc.

(** The account types of [gnucash_core_c]. *)
Inductive AccountType :=
  | ACCT_TYPE_NONE | ACCT_TYPE_BANK | ACCT_TYPE_CASH | ACCT_TYPE_ASSET
  | ACCT_TYPE_CREDIT | ACCT_TYPE_LIABILITY | ACCT_TYPE_STOCK
  | ACCT_TYPE_MUTUAL | ACCT_TYPE_CURRENCY | ACCT_TYPE_INCOME
  | ACCT_TYPE_EXPENSE | ACCT_TYPE_EQUITY | ACCT_TYPE_RECEIVABLE
  | ACCT_TYPE_PAYABLE | ACCT_TYPE_ROOT | ACCT_TYPE_TRADING.

#[global] Instance AccountType_eq_dec : EqDecision AccountType.
Proof. solve_decision. Defined.

Record Commodity := mkCommodity {
  cm_namespace : string;
  cm_mnemonic : string
}.

#[global] Instance Commodity_eq_dec : EqDecision Commodity.
Proof. solve_decision. Defined.

(** The argument [opening_date] of [main], a [datetime]. *)
Record datetime := mkDate { dt_year : Z; dt_month : Z; dt_day : Z }.

(** An account with the accounts below it.  An account object of the
    bindings is a position in the tree of its book: the indices of the
    children to follow from the root account. *)
#[local] Unset Elimination Schemes.
Inductive Account := mkAccount {
  acc_name : string;
  acc_type : AccountType;
  acc_placeholder : bool;
  acc_commodity : option Commodity;
  acc_children : list Account
}.
#[local] Set Elimination Schemes.

Definition AccountRef := list nat.

Record Split := mkSplit {
  split_account : option AccountRef;
  split_amount : Qc;
  split_value : Qc
}.

Record Transaction := mkTransaction {
  trans_guid : N;
  trans_description : string;
  trans_date : option (Z * Z * Z);
  trans_currency : option Commodity;
  trans_splits : list Split
}.

(** The price database of a book, seen through the one call the program
    makes on it. *)
Record PriceDB := mkPriceDB {
  convert_balance_nearest_price_t64 :
    Qc -> option Commodity -> option Commodity -> datetime -> Qc
}.

Record Book := mkBook {
  book_root : Account;
  book_transactions : list Transaction;
  book_orphan_splits : list Split;
  book_table : list Commodity;
  book_price_db : PriceDB
}.

(** A split object as [GetSplitList] hands it out: the split and its
    [parent] attribute, [None] for a split without transaction. *)
Record SplitObj := mkSplitObj {
  parent : option N;
  split_data : Split
}.

(** ** The account tree *)

(** The account at a position, if the position is one of the tree. *)
Fixpoint get_node (a : Account) (p : AccountRef) : option Account :=
  match p with
  | [] => Some a
  | i :: p' =>
      match acc_children a !! i with
      | Some c => get_node c p'
      | None => None
      end
  end.

Definition with_children (a : Account) (cs : list Account) : Account :=
  mkAccount (acc_name a) (acc_type a) (acc_placeholder a) (acc_commodity a) cs.

(** [parent.append_child(child)], for the account [parent] at position [p]:
    the child becomes the last child. *)
Fixpoint append_child (a : Account) (p : AccountRef) (child : Account)
  : Account :=
  match p with
  | [] => with_children a (acc_children a ++ [child])
  | i :: p' =>
      match acc_children a !! i with
      | Some c =>
          with_children a (<[i := append_child c p' child]> (acc_children a))
      | None => a
      end
  end.

(** The position that [append_child] gives to the new child. *)
Definition child_ref (a : Account) (p : AccountRef) : AccountRef :=
  match get_node a p with
  | Some n => p ++ [length (acc_children n)]
  | None => p
  end.

(** A loop over the children of an account that knows the index of each
    child and collects what the body yields. *)
Definition flat_mapi {A B : Type} (f : nat -> A -> list B)
  : nat -> list A -> list B :=
  fix go (i : nat) (l : list A) : list B :=
    match l with
    | [] => []
    | x :: l' => f i x ++ go (S i) l'
    end.

(** [account.get_descendants()]: the accounts below [a], each one followed
    by its own descendants. *)
Fixpoint get_descendants_from (p : AccountRef) (a : Account)
  : list AccountRef :=
  flat_mapi (fun i c => (p ++ [i]) :: get_descendants_from (p ++ [i]) c)
    0%nat (acc_children a).

(** The generator [walk] of [get_account_balances]: the account itself,
    then the walk of each of its children. *)
Fixpoint walk_from (p : AccountRef) (a : Account) : list AccountRef :=
  p :: flat_mapi (fun i c => walk_from (p ++ [i]) c) 0%nat (acc_children a).

(** The names on the way from the root down to a position, the root's own
    name left out. *)
Fixpoint path_names (a : Account) (p : AccountRef) : list string :=
  match p with
  | [] => []
  | i :: p' =>
      match acc_children a !! i with
      | Some c => acc_name c :: path_names c p'
      | None => []
      end
  end.

(** [g_strsplit]: the pieces of [s] between the occurrences of [delim]. *)
Fixpoint strsplit_from (delim : string) (skip : nat) (s cur : string)
  : list string :=
  match s with
  | EmptyString => [cur]
  | String c s' =>
      match skip with
      | S k => strsplit_from delim k s' cur
      | O =>
          if String.prefix delim s
          then cur :: strsplit_from delim (String.length delim - 1) s' ""
          else strsplit_from delim 0 s' (cur +:+ String c "")
      end
  end.

Definition strsplit (s delim : string) : list string :=
  match s, delim with
  | EmptyString, _ => []
  | _, EmptyString => [s]
  | _, _ => strsplit_from delim 0 s ""
  end.

(** A loop over the children of an account that may return from inside:
    the body answers [Some r] to return [r] and [None] to go on with the
    next child. *)
Definition scan_children {A : Type} (f : nat -> Account -> option (option A))
  : nat -> list Account -> option A :=
  fix scan (i : nat) (cs : list Account) : option A :=
    match cs with
    | [] => None
    | c :: cs' =>
        match f i c with
        | Some r => r
        | None => scan (S i) cs'
        end
    end.

(** The search of [gnc_account_lookup_by_full_name]: a child with the first
    name; when names are left it is searched for the rest, and the search
    gives up at a child with that name and no children. *)
Fixpoint lookup_by_names (names : list string) (a : Account)
  : option AccountRef :=
  match names with
  | [] => None
  | n :: rest =>
      scan_children
        (fun i c =>
           if decide (acc_name c = n) then
             match rest with
             | [] => Some (Some [i])
             | _ :: _ =>
                 match acc_children c with
                 | [] => Some None
                 | _ :: _ =>
                     match lookup_by_names rest c with
                     | Some r => Some (Some (i :: r))
                     | None => None
                     end
                 end
             end
           else None)
        0%nat (acc_children a)
  end.

(** ** Splits, balances and transactions of a book *)

Definition splits_of (t : Transaction) : list SplitObj :=
  mkSplitObj (Some (trans_guid t)) <$> trans_splits t.

Definition book_splits (book : Book) : list SplitObj :=
  (book_transactions book ≫= splits_of)
    ++ (mkSplitObj None <$> book_orphan_splits book).

(** [account.GetSplitList()] *)
Definition GetSplitList (book : Book) (account : AccountRef) : list SplitObj :=
  filter (fun s => split_account (split_data s) = Some account)
    (book_splits book).

(** [account.GetBalance()]: the sum of the amounts of the account's splits. *)
Definition GetBalance (book : Book) (account : AccountRef) : Qc :=
  foldr Qcplus 0 ((fun s => split_amount (split_data s))
                    <$> GetSplitList book account).

(** [transaction.Destroy()]: the transaction goes, and its splits with it. *)
Definition Destroy (book : Book) (transaction : N) : Book :=
  mkBook (book_root book)
    (filter (fun t => trans_guid t ≠ transaction) (book_transactions book))
    (book_orphan_splits book) (book_table book) (book_price_db book).

Definition with_root (book : Book) (root : Account) : Book :=
  mkBook root (book_transactions book) (book_orphan_splits book)
    (book_table book) (book_price_db book).

(** A GUID that no transaction of the book has. *)
Definition new_guid (book : Book) : N :=
  (1 + foldr N.max 0 (trans_guid <$> book_transactions book))%N.

(** [transaction.CommitEdit()] of a transaction made in the book. *)
Definition CommitEdit (book : Book) (transaction : Transaction) : Book :=
  mkBook (book_root book) (book_transactions book ++ [transaction])
    (book_orphan_splits book) (book_table book) (book_price_db book).

(** [book.get_table().lookup(namespace, mnemonic)] *)
Definition table_lookup (book : Book) (namespace mnemonic : string)
  : option Commodity :=
  List.find (fun c => bool_decide (cm_namespace c = namespace
                                   ∧ cm_mnemonic c = mnemonic))
    (book_table book).

Definition get_root_account (book : Book) : AccountRef := [].

Definition GetPlaceholder (book : Book) (account : AccountRef) : bool :=
  match get_node (book_root book) account with
  | Some a => acc_placeholder a
  | None => false
  end.

Definition GetType (book : Book) (account : AccountRef) : AccountType :=
  match get_node (book_root book) account with
  | Some a => acc_type a
  | None => ACCT_TYPE_NONE
  end.

Definition GetCommodity (book : Book) (account : AccountRef)
  : option Commodity :=
  get_node (book_root book) account ≫= acc_commodity.

Definition get_descendants (book : Book) (account : AccountRef)
  : list AccountRef :=
  match get_node (book_root book) account with
  | Some a => get_descendants_from account a
  | None => []
  end.

Definition walk (book : Book) (account : AccountRef) : list AccountRef :=
  match get_node (book_root book) account with
  | Some a => walk_from account a
  | None => []
  end.

(** [gnucash.Account(book)]: an account that is in no tree yet. *)
Definition Account_new : Account :=
  mkAccount "" ACCT_TYPE_NONE false None [].

Definition SetName (a : Account) (name : string) : Account :=
  mkAccount name (acc_type a) (acc_placeholder a) (acc_commodity a)
    (acc_children a).

Definition SetType (a : Account) (t : AccountType) : Account :=
  mkAccount (acc_name a) t (acc_placeholder a) (acc_commodity a)
    (acc_children a).

Definition SetPlaceholder (a : Account) (b : bool) : Account :=
  mkAccount (acc_name a) (acc_type a) b (acc_commodity a) (acc_children a).

(** [SetCommodity] leaves the account as it is when it is given [None]. *)
Definition SetCommodity (a : Account) (c : option Commodity) : Account :=
  match c with
  | Some _ =>
      mkAccount (acc_name a) (acc_type a) (acc_placeholder a) c
        (acc_children a)
  | None => a
  end.

(** [parent.append_child(child)] in a book; the result comes with the
    account object of the child. *)
Definition book_append_child (book : Book) (parent_account : AccountRef)
    (child : Account) : Book * AccountRef :=
  (with_root book (append_child (book_root book) parent_account child),
   child_ref (book_root book) parent_account).

(** [gnucash.Transaction(book)] and its setters. *)
Definition Transaction_new (book : Book) : Transaction :=
  mkTransaction (new_guid book) "" None None [].

Definition SetDescription (t : Transaction) (text : string) : Transaction :=
  mkTransaction (trans_guid t) text (trans_date t) (trans_currency t)
    (trans_splits t).

Definition SetDate (t : Transaction) (day month year : Z) : Transaction :=
  mkTransaction (trans_guid t) (trans_description t)
    (Some (day, month, year)) (trans_currency t) (trans_splits t).

(** [SetCurrency] leaves the transaction as it is when it is given [None]. *)
Definition SetCurrency (t : Transaction) (c : option Commodity)
  : Transaction :=
  match c with
  | Some _ =>
      mkTransaction (trans_guid t) (trans_description t) (trans_date t) c
        (trans_splits t)
  | None => t
  end.

Definition with_splits (t : Transaction) (l : list Split) : Transaction :=
  mkTransaction (trans_guid t) (trans_description t) (trans_date t)
    (trans_currency t) l.

(** [gnucash.Split(book)]: a split with no parent and no account. *)
Definition Split_new : Split := mkSplit None 0 0.

(** [split.SetParent(transaction)]: the split becomes the last split of
    the transaction.  From then on the split object is the index of the
    split in the transaction under edit, and its setters write there. *)
Definition SetParent (s : Split) (t : Transaction) : Transaction * nat :=
  (with_splits t (trans_splits t ++ [s]), length (trans_splits t)).

Definition SetAccount (t : Transaction) (split : nat) (account : AccountRef)
  : Transaction :=
  with_splits t
    (alter (fun s => mkSplit (Some account) (split_amount s) (split_value s))
       split (trans_splits t)).

Definition SetAmount (t : Transaction) (split : nat) (amount : Qc)
  : Transaction :=
  with_splits t
    (alter (fun s => mkSplit (split_account s) amount (split_value s))
       split (trans_splits t)).

Definition SetValue (t : Transaction) (split : nat) (value : Qc)
  : Transaction :=
  with_splits t
    (alter (fun s => mkSplit (split_account s) (split_amount s) value)
       split (trans_splits t)).

Definition GetAccount (t : Transaction) (split : nat) : option AccountRef :=
  trans_splits t !! split ≫= split_account.

(** ** Python values, exceptions and the world of a run *)

(** A value of the configuration object, as [json.load] gives it: a string
    or a number.  The bindings raise [TypeError] when they get a number
    for a C string, and so does [+] between a string and a number. *)
Inductive PyValue :=
  | PyStr (s : string)
  | PyInt (z : Z).

Inductive Exception :=
  | KeyError (key : string)
  | FileExistsError (path : string)
  | FileNotFoundError (path : string)
  | TypeError
  | GnuCashBackendException (path : string).

Inductive result (A : Type) :=
  | Ok (a : A)
  | Raise (e : Exception).
Arguments Ok {A} a.
Arguments Raise {A} e.

Inductive SessionOpenMode :=
  | SESSION_NORMAL_OPEN
  | SESSION_NEW_STORE
  | SESSION_NEW_OVERWRITE
  | SESSION_READ_ONLY
  | SESSION_BREAK_LOCK.

(** What the world knows of a session that was opened: its file, its mode
    and whether it is still open. *)
Record SessionEntry := mkSessionEntry {
  se_path : string;
  se_mode : SessionOpenMode;
  se_open : bool
}.

(** The files (a GnuCash file holds a book), the sessions opened so far and
    the warnings logged so far.  Log records below the warning level carry
    nothing the program reads back and are left out. *)
Record World := mkWorld {
  w_files : gmap string Book;
  w_sessions : list SessionEntry;
  w_log : list string
}.

(** A session object: its entry in the world and the book it holds in
    memory. *)
Record Session := mkSession {
  session_id : nat;
  session_path : string;
  session_book : Book
}.

(** A computation that reads and writes the world and may raise. *)
Definition M (A : Type) : Type := World -> result A * World.

#[global] Instance M_ret : MRet M := fun A a w => (Ok a, w).
#[global] Instance M_bind : MBind M := fun A B f m w =>
  match m w with
  | (Ok a, w') => f a w'
  | (Raise e, w') => (Raise e, w')
  end.

Definition raise {A : Type} (e : Exception) : M A := fun w => (Raise e, w).

Definition lift {A : Type} (r : result A) : M A := fun w => (r, w).

#[global] Instance result_ret : MRet result := fun A a => Ok a.
#[global] Instance result_bind : MBind result := fun A B f r =>
  match r with
  | Ok a => f a
  | Raise e => Raise e
  end.

(** A [for] loop whose body updates a state and may raise. *)
Fixpoint for_each {A S : Type} (body : S -> A -> M S) (l : list A) (s : S)
  : M S :=
  match l with
  | [] => mret s
  | x :: l' => s' ← body s x; for_each body l' s'
  end.

Fixpoint for_each_result {A S : Type} (body : S -> A -> result S)
    (l : list A) (s : S) : result S :=
  match l with
  | [] => Ok s
  | x :: l' => s' ← body s x; for_each_result body l' s'
  end.

(** [config[key]] *)
Definition getitem (config : gmap string PyValue) (key : string)
  : M PyValue :=
  match config !! key with
  | Some v => mret v
  | None => raise (KeyError key)
  end.

(** A Python value given where the bindings, or [+] on a string, want a
    string. *)
Definition as_str (v : PyValue) : result string :=
  match v with
  | PyStr s => Ok s
  | PyInt _ => Raise TypeError
  end.

Definition os_path_exists (path : string) : M bool :=
  fun w => (Ok (bool_decide (is_Some (w_files w !! path))), w).

Definition shutil_copyfile (src dst : string) : M unit :=
  fun w =>
    match w_files w !! src with
    | Some content =>
        (Ok tt, mkWorld (<[dst := content]> (w_files w)) (w_sessions w)
                  (w_log w))
    | None => (Raise (FileNotFoundError src), w)
    end.

Definition logger_warning (message : string) : M unit :=
  fun w => (Ok tt, mkWorld (w_files w) (w_sessions w) (w_log w ++ [message])).

(** [gnucash.Session(path, mode)]: the book of the file is loaded. *)
Definition Session_open (path : string) (mode : SessionOpenMode) : M Session :=
  fun w =>
    match w_files w !! path with
    | Some book =>
        (Ok (mkSession (length (w_sessions w)) path book),
         mkWorld (w_files w)
           (w_sessions w ++ [mkSessionEntry path mode true]) (w_log w))
    | None => (Raise (GnuCashBackendException path), w)
    end.

(** [session.save()]: the book of the session is written to its file. *)
Definition session_save (session : Session) : M unit :=
  fun w =>
    (Ok tt, mkWorld (<[session_path session := session_book session]>
                       (w_files w)) (w_sessions w) (w_log w)).

(** A session entry once the session was ended. *)
Definition closed (e : SessionEntry) : SessionEntry :=
  mkSessionEntry (se_path e) (se_mode e) false.

(** [session.end()] *)
Definition session_end (session : Session) : M unit :=
  fun w =>
    (Ok tt, mkWorld (w_files w)
              (alter closed (session_id session) (w_sessions w)) (w_log w)).

Definition with_book (session : Session) (book : Book) : Session :=
  mkSession (session_id session) (session_path session) book.

(** ** Dictionaries *)

(** A Python [dict] with string keys: the items in the order in which
    their keys were first set. *)
Fixpoint dict_set {V : Type} (d : list (string * V)) (k : string) (v : V)
  : list (string * V) :=
  match d with
  | [] => [(k, v)]
  | (k', v') :: d' =>
      if decide (k' = k) then (k, v) :: d' else (k', v') :: dict_set d' k v
  end.

Fixpoint dict_get {V : Type} (d : list (string * V)) (k : string)
  : option V :=
  match d with
  | [] => None
  | (k', v') :: d' => if decide (k' = k) then Some v' else dict_get d' k
  end.

(** ** Predicates of the statements *)

(** What [append_child] leaves alone: every account that was in the tree
    is still at its position, with its name, type, placeholder flag and
    commodity. *)
Definition same_account (a a' : Account) : Prop :=
  acc_name a = acc_name a' /\ acc_type a = acc_type a'
  /\ acc_placeholder a = acc_placeholder a'
  /\ acc_commodity a = acc_commodity a'.

Definition tree_extends (r r' : Account) : Prop :=
  forall p a, get_node r p = Some a ->
    exists a', get_node r' p = Some a' /\ same_account a a'.

(** ** A book of 2023

    The books and the worlds at which the statements are tried.  Account
    names are joined with a dot; the price database doubles every balance
    that it converts. *)

Definition EUR : Commodity := mkCommodity "CURRENCY" "EUR".
Definition USD : Commodity := mkCommodity "CURRENCY" "USD".

Definition numeric (z : Z) : Qc := Q2Qc (inject_Z z).

Definition doubling_price_db : PriceDB :=
  mkPriceDB (fun balance _ _ _ => balance * numeric 2).

Definition account_car : Account :=
  mkAccount "Car" ACCT_TYPE_ASSET false (Some EUR) [].

Definition account_equity : Account :=
  mkAccount "Equity" ACCT_TYPE_EQUITY false (Some USD)
    [mkAccount "Opening" ACCT_TYPE_EQUITY false (Some EUR) [];
     account_car].

Definition root_2023 : Account :=
  mkAccount "Root Account" ACCT_TYPE_ROOT false None
    [mkAccount "Assets" ACCT_TYPE_ASSET true (Some EUR)
       [mkAccount "Checking" ACCT_TYPE_BANK false (Some EUR) [];
        mkAccount "Dollars" ACCT_TYPE_BANK false (Some USD) [];
        mkAccount "Empty" ACCT_TYPE_BANK false (Some EUR) []];
     mkAccount "Income" ACCT_TYPE_INCOME false (Some EUR)
       [mkAccount "Salary" ACCT_TYPE_INCOME false (Some EUR) []];
     account_equity].

Definition transactions_2023 : list Transaction :=
  [mkTransaction 7 "Salary" (Some (28, 2, 2023)%Z) (Some EUR)
     [mkSplit (Some [0; 0]%nat) (numeric 500) (numeric 500);
      mkSplit (Some [1; 0]%nat) (numeric (-500)) (numeric (-500))];
   mkTransaction 8 "Fee" (Some (31, 3, 2023)%Z) (Some EUR)
     [mkSplit (Some [0; 1]%nat) (numeric 10) (numeric 20);
      mkSplit (Some [1; 0]%nat) (numeric (-20)) (numeric (-20))];
   mkTransaction 9 "Car" (Some (30, 6, 2023)%Z) (Some EUR)
     [mkSplit (Some [2; 1]%nat) (numeric 30) (numeric 30);
      mkSplit (Some [0; 0]%nat) (numeric (-30)) (numeric (-30))]].

(** A split of the checking account that has no parent transaction. *)
Definition orphan_split : Split :=
  mkSplit (Some [0; 0]%nat) (numeric 1) (numeric 1).

Definition book_2023 : Book :=
  mkBook root_2023 transactions_2023 [] [EUR; USD] doubling_price_db.

Definition book_2023_orphan : Book :=
  mkBook root_2023 transactions_2023 [orphan_split] [EUR; USD]
    doubling_price_db.

Definition world_2023 : World :=
  mkWorld {[ "2023.gnucash" := book_2023 ]} [] [].

Definition world_2023_orphan : World :=
  mkWorld {[ "2023.gnucash" := book_2023_orphan ]} [] [].

Definition config_2024 : gmap string PyValue :=
  {[ "equity_name" := PyStr "Equity";
     "equity_opening_name" := PyStr "Opening";
     "opening_transaction_text" := PyStr "Opening balance";
     "currency" := PyStr "EUR" ]}.

(** The opening name is a number. *)
Definition config_number : gmap string PyValue :=
  <["equity_opening_name" := PyInt 5]> config_2024.

(** The key [currency] is missing. *)
Definition config_no_currency : gmap string PyValue :=
  delete "currency" config_2024.

Definition new_year : datetime := mkDate 2024 1 1.

(** A transaction that has no split, and the book of 2023 with it. *)
Definition transaction_without_splits : Transaction :=
  mkTransaction 10 "Void" None None [].

Definition book_2023_void : Book :=
  mkBook root_2023 (transactions_2023 ++ [transaction_without_splits]) []
    [EUR; USD] doubling_price_db.

Definition world_2023_void : World :=
  mkWorld {[ "2023.gnucash" := book_2023_void ]} [] [].


(** A book whose opening balances account is a child of the root that has
    the dot in its name; there is no account [Equity]. *)
Definition book_flat_equity : Book :=
  mkBook
    (mkAccount "Root Account" ACCT_TYPE_ROOT false None
       [mkAccount "Equity.Opening" ACCT_TYPE_EQUITY false (Some EUR) []])
    [] [] [EUR; USD] doubling_price_db.

(** ** The program *)

Section Program.

(** The separator of account names in full names, a setting of the
    GnuCash engine. *)
Variable account_separator : string.

(** [account.get_full_name()] *)
Definition get_full_name (book : Book) (account : AccountRef) : string :=
  String.concat account_separator (path_names (book_root book) account).

(** [root_account.lookup_by_full_name(name)] on the root account of the
    book. *)
Definition lookup_by_full_name (book : Book) (name : string)
  : option AccountRef :=
  lookup_by_names (strsplit name account_separator) (book_root book).

(** Account types which are to be excluded from creating opening
    transactions. *)
Definition ACCOUNT_TYPES_TO_EXCLUDE : list AccountType :=
  [ACCT_TYPE_INCOME; ACCT_TYPE_EXPENSE; ACCT_TYPE_TRADING; ACCT_TYPE_ROOT;
   ACCT_TYPE_EQUITY].

Definition get_account_balances (book : Book) : list (string * Qc) :=
  let root := get_root_account book in
  foldl
    (fun balances acc =>
       if GetPlaceholder book acc then balances
       else if bool_decide (GetType book acc ∈ ACCOUNT_TYPES_TO_EXCLUDE)
       then balances
       else dict_set balances (get_full_name book acc) (GetBalance book acc))
    [] (walk book root).

(** The body of the inner loop of [prepare_new_year_file]. *)
Definition delete_split (account : AccountRef) (book_new : Book)
    (split : SplitObj) : M Book :=
  let transaction := parent split in
  match transaction with
  | None =>
      logger_warning
        ("Split without parent transaction found in account "
           +:+ get_full_name book_new account +:+ ".");;
      mret book_new
  | Some transaction => mret (Destroy book_new transaction)
  end.

(** The body of the outer loop: the split list is read when the account's
    turn comes. *)
Definition delete_splits_of (book_new : Book) (account : AccountRef)
  : M Book :=
  let splits := GetSplitList book_new account in
  for_each (delete_split account) splits book_new.

Definition prepare_new_year_file (previous_file new_file : string)
  : M Session :=
  target_exists ← os_path_exists new_file;
  if (target_exists : bool) then raise (FileExistsError new_file)
  else
    shutil_copyfile previous_file new_file;;
    session_new ← Session_open new_file SESSION_NORMAL_OPEN;
    let book_new := session_book session_new in
    let root_account := get_root_account book_new in
    let accounts := get_descendants book_new root_account in
    book_new ← for_each delete_splits_of accounts book_new;
    mret (with_book session_new book_new).

(** Lines 118 to 141 of [main]: the equity placeholder account and the
    opening balances account below it, looked up or created. *)
Definition main_equity_accounts (equity_name equity_opening_name : PyValue)
    (transaction_currency : option Commodity) (book_new : Book)
  : result (Book * AccountRef) :=
  let root_account := get_root_account book_new in
  equity_name ← as_str equity_name;
  let '(book_new, equity_placeholder_account) :=
    match lookup_by_full_name book_new equity_name with
    | Some found => (book_new, found)
    | None =>
        let equity_placeholder_account := Account_new in
        let equity_placeholder_account :=
          SetName equity_placeholder_account equity_name in
        let equity_placeholder_account :=
          SetType equity_placeholder_account ACCT_TYPE_EQUITY in
        let equity_placeholder_account :=
          SetPlaceholder equity_placeholder_account true in
        book_append_child book_new root_account equity_placeholder_account
    end in
  equity_opening_name ← as_str equity_opening_name;
  let equity_opening_full_name :=
    equity_name +:+ "." +:+ equity_opening_name in
  match lookup_by_full_name book_new equity_opening_full_name with
  | Some found => Ok (book_new, found)
  | None =>
      let equity_account := Account_new in
      let equity_account := SetName equity_account equity_opening_name in
      let equity_account := SetType equity_account ACCT_TYPE_EQUITY in
      let equity_account := SetCommodity equity_account transaction_currency in
      Ok (book_append_child book_new equity_placeholder_account
            equity_account)
  end.

(** Lines 145 to 181 of [main]: the body of the loop over the balances.
    The test [balance != 0] compares numbers and the test [==] on the
    commodities compares commodities. *)
Definition main_opening_transaction (opening_date : datetime)
    (opening_transaction_text : PyValue)
    (transaction_currency : option Commodity) (price_db : PriceDB)
    (equity_account : AccountRef) (book_new : Book) (item : string * Qc)
  : result Book :=
  let '(account_name, balance) := item in
  if bool_decide (balance ≠ 0) then
    let '(book_new, account) :=
      match lookup_by_full_name book_new account_name with
      | Some found => (book_new, found)
      | None =>
          let account := Account_new in
          let account := SetName account account_name in
          book_append_child book_new (get_root_account book_new) account
      end in
    let transaction := Transaction_new book_new in
    let '(transaction, split_asset) := SetParent Split_new transaction in
    let transaction := SetAccount transaction split_asset account in
    let '(transaction, split_equity) := SetParent Split_new transaction in
    let transaction := SetAccount transaction split_equity equity_account in
    let asset_commodity :=
      GetAccount transaction split_asset ≫= GetCommodity book_new in
    let equity_commodity :=
      GetAccount transaction split_equity ≫= GetCommodity book_new in
    let equity_value :=
      if bool_decide (asset_commodity = equity_commodity) then balance
      else convert_balance_nearest_price_t64 price_db balance
             asset_commodity equity_commodity opening_date in
    opening_transaction_text ← as_str opening_transaction_text;
    let transaction := SetDescription transaction opening_transaction_text in
    let transaction :=
      SetDate transaction (dt_day opening_date) (dt_month opening_date)
        (dt_year opening_date) in
    let transaction := SetAmount transaction split_asset balance in
    let transaction := SetValue transaction split_asset equity_value in
    let transaction := SetAmount transaction split_equity (- equity_value) in
    let transaction := SetValue transaction split_equity (- equity_value) in
    let transaction := SetCurrency transaction transaction_currency in
    Ok (CommitEdit book_new transaction)
  else Ok book_new.

(** Lines 114 to 181 of [main]: what is done to the new book between the
    reading of the balances and the saving. *)
Definition main_synthesize (opening_date : datetime)
    (equity_name equity_opening_name opening_transaction_text
       currency : PyValue)
    (account_balances : list (string * Qc)) (book_new : Book)
  : result Book :=
  currency ← as_str currency;
  let transaction_currency := table_lookup book_new "CURRENCY" currency in
  let price_db := book_price_db book_new in
  '(book_new, equity_account) ←
    main_equity_accounts equity_name equity_opening_name transaction_currency
      book_new;
  for_each_result
    (main_opening_transaction opening_date opening_transaction_text
       transaction_currency price_db equity_account)
    account_balances book_new.

Definition main (previous_file new_file : string) (opening_date : datetime)
    (config : gmap string PyValue) : M unit :=
  equity_name ← getitem config "equity_name";
  equity_opening_name ← getitem config "equity_opening_name";
  opening_transaction_text ← getitem config "opening_transaction_text";
  currency ← getitem config "currency";
  session_new ← prepare_new_year_file previous_file new_file;
  session_prev ← Session_open previous_file SESSION_READ_ONLY;
  let book_prev := session_book session_prev in
  let account_balances := get_account_balances book_prev in
  let book_new := session_book session_new in
  book_new ←
    lift (main_synthesize opening_date equity_name equity_opening_name
            opening_transaction_text currency account_balances book_new);
  let session_new := with_book session_new book_new in
  session_save session_new;;
  session_end session_new;;
  session_end session_prev.

(** ** Notions of the statements about the program *)

(** The splits of an account that have no parent transaction. *)
Definition orphans_of (book : Book) (account : AccountRef) : list Split :=
  filter (fun s => split_account s = Some account) (book_orphan_splits book).

(** The warning of [prepare_new_year_file] for a split of the account. *)
Definition orphan_warning (book : Book) (account : AccountRef) : string :=
  "Split without parent transaction found in account "
    +:+ get_full_name book account +:+ ".".

(** The warnings for an account: one for each of its splits without
    parent transaction. *)
Definition orphan_warnings (book : Book) (account : AccountRef)
  : list string :=
  (fun _ => orphan_warning book account) <$> orphans_of book account.

(** The transaction has a split in the account. *)
Definition posted_in (t : Transaction) (account : AccountRef) : Prop :=
  exists s, s ∈ trans_splits t /\ split_account s = Some account.

(** The parents of the splits of an account that have one. *)
Definition account_parents (book : Book) (account : AccountRef) : list N :=
  omap parent
    (filter (fun s => split_account (split_data s) = Some account)
       (book_transactions book ≫= splits_of)).

(** The book after the turn of an account in the purge, and after the
    turns of a list of accounts. *)
Definition purged_account (book : Book) (account : AccountRef) : Book :=
  foldl Destroy book (account_parents book account).

Definition purged (book : Book) (accounts : list AccountRef) : Book :=
  foldl purged_account book accounts.

Definition add_log (w : World) (messages : list string) : World :=
  mkWorld (w_files w) (w_sessions w) (w_log w ++ messages).

(** The account an opening transaction is made for: the account found
    under the name, or else a new account below the root. *)
Definition opening_account (book : Book) (account_name : string)
  : Book * AccountRef :=
  match lookup_by_full_name book account_name with
  | Some found => (book, found)
  | None =>
      book_append_child book (get_root_account book)
        (SetName Account_new account_name)
  end.

(** The book once the equity placeholder account is there: the account
    found under the name, or else a new placeholder below the root. *)
Definition equity_placeholder (book : Book) (equity_name : string)
  : Book * AccountRef :=
  match lookup_by_full_name book equity_name with
  | Some found => (book, found)
  | None =>
      book_append_child book (get_root_account book)
        (SetPlaceholder
           (SetType (SetName Account_new equity_name) ACCT_TYPE_EQUITY) true)
  end.

(** The value [equity_value] of an opening transaction. *)
Definition equity_value_of (price_db : PriceDB) (opening_date : datetime)
    (balance : Qc) (asset_commodity equity_commodity : option Commodity)
  : Qc :=
  if bool_decide (asset_commodity = equity_commodity) then balance
  else convert_balance_nearest_price_t64 price_db balance asset_commodity
         equity_commodity opening_date.

(** An opening transaction as it is committed. *)
Definition opening_transaction (guid : N) (text : string)
    (opening_date : datetime) (currency : option Commodity)
    (account equity_account : AccountRef) (balance equity_value : Qc)
  : Transaction :=
  mkTransaction guid text
    (Some (dt_day opening_date, dt_month opening_date, dt_year opening_date))
    currency
    [mkSplit (Some account) balance equity_value;
     mkSplit (Some equity_account) (- equity_value) (- equity_value)].

(** The transaction is the opening transaction of the item of the
    balances, seen from the book [final] in which it ends. *)
Definition opens (final : Book) (opening_date : datetime) (text : string)
    (currency : option Commodity) (price_db : PriceDB)
    (equity_account : AccountRef) (item : string * Qc) (t : Transaction)
  : Prop :=
  exists account,
    is_Some (get_node (book_root final) account)
    /\ t = opening_transaction (trans_guid t) text opening_date currency
             account equity_account item.2
             (equity_value_of price_db opening_date item.2
                (GetCommodity final account)
                (GetCommodity final equity_account)).

(** The items of the balances that get an opening transaction. *)
Definition nonzero_items (account_balances : list (string * Qc))
  : list (string * Qc) :=
  filter (fun item => item.2 ≠ 0) account_balances.

(** The keys that [main] reads from the configuration, in the order in
    which it reads them. *)
Definition config_keys : list string :=
  ["equity_name"; "equity_opening_name"; "opening_transaction_text";
   "currency"].

(** The accounts that the loop of [get_account_balances] records, in
    the order of the walk. *)
Definition recorded_accounts (book : Book) : list AccountRef :=
  filter (fun acc => GetPlaceholder book acc = false
                     /\ GetType book acc ∉ ACCOUNT_TYPES_TO_EXCLUDE)
    (walk book (get_root_account book)).

(** The sum of a list of numbers. *)
Definition total (l : list Qc) : Qc := foldr Qcplus 0 l.

(** What the splits of a list of transactions add to the balance of an
    account. *)
Definition posted_amount (transactions : list Transaction)
    (account : AccountRef) : Qc :=
  total ((fun s => split_amount (split_data s))
           <$> filter (fun s => split_account (split_data s) = Some account)
                 (transactions ≫= splits_of)).

(** The sum of the balances of the items whose name is looked up to the
    account. *)
Definition carried (book : Book) (account_balances : list (string * Qc))
    (account : AccountRef) : Qc :=
  total (snd <$> filter (fun item =>
                           lookup_by_full_name book item.1 = Some account)
                   account_balances).

(** * Properties *)

(** ** The account tree *)

(** Induction on an account with its children. *)
Lemma Account_children_ind (P : Account -> Prop) :
  (forall a, Forall P (acc_children a) -> P a) -> forall a, P a.
Proof.
  intros step.
  fix IH 1. intros [n t pl c cs]. apply step. simpl.
  induction cs as [|x cs' IHcs]; constructor; [apply IH | exact IHcs].
Qed.

Lemma elem_of_flat_mapi {A B : Type} (f : nat -> A -> list B) i l y :
  y ∈ flat_mapi f i l <->
  exists k x, l !! k = Some x /\ y ∈ f (i + k)%nat x.
Proof.
  revert i. induction l as [|x l IH]; intros i; simpl.
  - split; [intros H; inversion H | intros (k & x & H & _); discriminate].
  - rewrite elem_of_app, IH. split.
    + intros [H | (k & z & Hk & Hy)].
      * exists 0%nat, x. rewrite Nat.add_0_r. done.
      * exists (S k), z. split; [done|].
        by replace (i + S k)%nat with (S i + k)%nat by lia.
    + intros ([|k] & z & Hk & Hy); simpl in Hk.
      * left. injection Hk as <-. by rewrite Nat.add_0_r in Hy.
      * right. exists k, z. split; [done|].
        by replace (S i + k)%nat with (i + S k)%nat by lia.
Qed.

Lemma get_node_app a p q :
  get_node a (p ++ q) = get_node a p ≫= fun b => get_node b q.
Proof.
  revert a. induction p as [|i p IH]; intros a; simpl; [done|].
  destruct (acc_children a !! i); simpl; [apply IH | done].
Qed.

(** The walk from an account visits exactly the positions below it. *)
Lemma elem_of_walk_from a : forall p r,
  r ∈ walk_from p a <-> exists q, r = p ++ q /\ is_Some (get_node a q).
Proof.
  induction a as [a IH] using Account_children_ind. intros p r.
  destruct a as [n t pl c cs]; simpl in *.
  rewrite elem_of_cons, elem_of_flat_mapi. split.
  - intros [-> | (k & x & Hk & Hr)].
    + exists []. by rewrite app_nil_r.
    + rewrite Forall_forall in IH.
      apply (IH x) in Hr; [|eapply list_elem_of_lookup_2, Hk].
      destruct Hr as (q & -> & Hq). exists (k :: q).
      rewrite <- app_assoc. simpl. by rewrite Hk.
  - intros ([|k q] & -> & Hq).
    + left. by rewrite app_nil_r.
    + right. simpl in Hq. destruct (cs !! k) as [x|] eqn:Hk;
        [|by destruct Hq].
      exists k, x. split; [done|]. rewrite Forall_forall in IH.
      apply (IH x); [eapply list_elem_of_lookup_2, Hk|].
      exists q. by rewrite <- app_assoc.
Qed.

Lemma walk_from_descendants a : forall p,
  walk_from p a = p :: get_descendants_from p a.
Proof.
  induction a as [a IH] using Account_children_ind. intros p.
  destruct a as [n t pl c cs]; simpl in *. f_equal.
  generalize 0%nat as i.
  induction IH as [|x l Hx _ IHl]; intros i; simpl; [done|].
  by rewrite Hx, IHl.
Qed.

Lemma elem_of_walk book r :
  r ∈ walk book (get_root_account book) <->
  is_Some (get_node (book_root book) r).
Proof.
  unfold walk, get_root_account. simpl. rewrite elem_of_walk_from.
  split; [intros (q & -> & H); done | intros H; by exists r].
Qed.

Lemma elem_of_get_descendants book r :
  r ∈ get_descendants book (get_root_account book) <->
  r <> [] /\ is_Some (get_node (book_root book) r).
Proof.
  pose proof (elem_of_walk book r) as Hw.
  unfold walk, get_descendants, get_root_account in *. simpl in *.
  rewrite walk_from_descendants, elem_of_cons in Hw.
  split.
  - intros H. split; [|apply Hw; by right].
    intros ->. revert H. generalize (book_root book). intros a H.
    destruct a as [n t pl c cs]. simpl in H.
    apply elem_of_flat_mapi in H as (k & x & _ & H).
    apply elem_of_cons in H as [H | H]; [discriminate|].
    pose proof (elem_of_walk_from x [k] []) as Hx.
    rewrite walk_from_descendants, elem_of_cons in Hx.
    destruct (proj1 Hx (or_intror H)) as (q & Hq & _). discriminate.
  - intros [Hne H]. apply Hw in H as [-> | H]; done.
Qed.

Lemma same_account_refl a : same_account a a.
Proof. by repeat split. Qed.

Lemma tree_extends_refl r : tree_extends r r.
Proof. intros p a H. exists a. split; [done | apply same_account_refl]. Qed.

Lemma tree_extends_trans r1 r2 r3 :
  tree_extends r1 r2 -> tree_extends r2 r3 -> tree_extends r1 r3.
Proof.
  intros H12 H23 p a H. destruct (H12 p a H) as (a2 & H2 & S2).
  destruct (H23 p a2 H2) as (a3 & H3 & S3). exists a3. split; [done|].
  destruct S2 as (?&?&?&?), S3 as (?&?&?&?). repeat split; congruence.
Qed.

Lemma append_child_extends child p : forall r,
  tree_extends r (append_child r p child).
Proof.
  induction p as [|j p IH]; intros r q a Hq; simpl.
  - destruct q as [|i q]; simpl in *.
    + injection Hq as <-. eexists. split; [done | by repeat split].
    + destruct (acc_children r !! i) as [x|] eqn:Hi; [|done].
      rewrite (lookup_app_l_Some _ _ _ _ Hi). exists a. split; [done|].
      apply same_account_refl.
  - destruct (acc_children r !! j) as [x|] eqn:Hj;
      [|exists a; split; [done | apply same_account_refl]].
    destruct q as [|i q]; simpl in *.
    + injection Hq as <-. eexists. split; [done | by repeat split].
    + destruct (decide (i = j)) as [->|Hne].
      * rewrite Hj in Hq. rewrite list_lookup_insert_eq
          by (eapply lookup_lt_Some, Hj). by apply IH.
      * rewrite list_lookup_insert_ne by done.
        destruct (acc_children r !! i); [|done].
        exists a. split; [done | apply same_account_refl].
Qed.

Lemma append_child_new child p : forall r n,
  get_node r p = Some n ->
  get_node (append_child r p child) (p ++ [length (acc_children n)])
  = Some child.
Proof.
  induction p as [|j p IH]; intros r n Hn; simpl in *.
  - injection Hn as <-. by rewrite lookup_app_r, Nat.sub_diag.
  - destruct (acc_children r !! j) as [x|] eqn:Hj; [|done]. simpl.
    rewrite list_lookup_insert_eq by (eapply lookup_lt_Some, Hj).
    by apply IH.
Qed.

Lemma append_child_self child p : forall r n,
  get_node r p = Some n ->
  get_node (append_child r p child) p
  = Some (with_children n (acc_children n ++ [child])).
Proof.
  induction p as [|j p IH]; intros r n Hn; simpl in *.
  - by injection Hn as <-.
  - destruct (acc_children r !! j) as [x|] eqn:Hj; [|done]. simpl.
    rewrite list_lookup_insert_eq by (eapply lookup_lt_Some, Hj).
    by apply IH.
Qed.

(** Below an account that is not the root, [append_child] adds no child
    to the root. *)
Lemma append_child_length child p r :
  p <> [] ->
  length (acc_children (append_child r p child)) = length (acc_children r).
Proof.
  destruct p as [|j p]; [done|]. intros _. simpl.
  destruct (acc_children r !! j); [|done]. simpl. apply length_insert.
Qed.

Lemma scan_children_Some {A : Type} (f : nat -> Account -> option (option A))
    cs : forall i r,
  scan_children f i cs = Some r ->
  exists k c, cs !! k = Some c /\ f (i + k)%nat c = Some (Some r).
Proof.
  induction cs as [|c cs IH]; intros i r H; simpl in H; [done|].
  destruct (f i c) as [o|] eqn:Hf.
  - subst o. exists 0%nat, c. by rewrite Nat.add_0_r.
  - destruct (IH _ _ H) as (k & x & Hk & Hx). exists (S k), x.
    split; [done|]. by replace (i + S k)%nat with (S i + k)%nat by lia.
Qed.

(** A position found by name is a position of the tree. *)
Lemma lookup_by_names_valid names : forall a r,
  lookup_by_names names a = Some r -> is_Some (get_node a r).
Proof.
  induction names as [|n rest IH]; intros a r H; simpl in H; [done|].
  apply scan_children_Some in H as (k & c & Hk & Hf). simpl in Hf.
  destruct (decide (acc_name c = n)); [|done].
  destruct rest as [|n' rest'].
  - injection Hf as <-. simpl. by rewrite Hk.
  - destruct (acc_children c); [done|].
    destruct (lookup_by_names (n' :: rest') c) as [r'|] eqn:Hr; [|done].
    injection Hf as <-. simpl. rewrite Hk. by apply IH.
Qed.

Lemma lookup_by_names_nonempty names a r :
  lookup_by_names names a = Some r -> r <> [].
Proof.
  destruct names as [|n rest]; [done|]. simpl. intros H.
  apply scan_children_Some in H as (k & c & _ & Hf). simpl in Hf.
  destruct (decide (acc_name c = n)); [|done].
  destruct rest as [|n' rest'].
  - by injection Hf as <-.
  - destruct (acc_children c); [done|].
    destruct (lookup_by_names (n' :: rest') c); [|done]. by injection Hf as <-.
Qed.

(** ** Dictionaries *)

Lemma dict_get_set {V : Type} (d : list (string * V)) k v k' :
  dict_get (dict_set d k v) k'
  = if decide (k = k') then Some v else dict_get d k'.
Proof.
  induction d as [|[k0 v0] d IH]; simpl.
  - by destruct (decide (k = k')).
  - destruct (decide (k0 = k)) as [->|Hne]; simpl.
    + by destruct (decide (k = k')).
    + destruct (decide (k0 = k')) as [->|Hne'].
      * by destruct (decide (k = k')) as [->|].
      * apply IH.
Qed.

(** A loop that sets [key x] to [val x] for the elements that pass a
    test: a key ends with the value of the last element that set it. *)
Lemma dict_get_foldl_set {A V : Type} (keep : A -> bool) (key : A -> string)
    (val : A -> V) (l : list A) : forall d name,
  dict_get
    (foldl (fun d x => if keep x then dict_set d (key x) (val x) else d) d l)
    name
  = match last (filter (fun x => keep x = true /\ key x = name) l) with
    | Some x => Some (val x)
    | None => dict_get d name
    end.
Proof.
  induction l as [|x l IH]; intros d name; simpl; [done|].
  rewrite IH, filter_cons.
  destruct (keep x) eqn:Hk.
  - destruct (decide (key x = name)) as [Hn|Hn].
    + rewrite decide_True by done. rewrite last_cons.
      destruct (last _); [done|].
      rewrite dict_get_set. by rewrite decide_True.
    + rewrite decide_False by tauto.
      destruct (last _); [done|].
      rewrite dict_get_set. by rewrite decide_False.
  - rewrite decide_False; [done|]. intros [? _]. done.
Qed.

(** ** The balance extractor *)

(** The test of the loop of [get_account_balances], as one boolean. *)
Lemma get_account_balances_foldl book :
  get_account_balances book
  = foldl
      (fun d acc =>
         if negb (GetPlaceholder book acc)
            && negb (bool_decide (GetType book acc ∈ ACCOUNT_TYPES_TO_EXCLUDE))
         then dict_set d (get_full_name book acc) (GetBalance book acc)
         else d)
      [] (walk book (get_root_account book)).
Proof.
  unfold get_account_balances. generalize (@nil (string * Qc)).
  induction (walk book (get_root_account book)) as [|x l IH]; intros d;
    simpl; [done|].
  rewrite <- IH. by destruct (GetPlaceholder book x), (bool_decide _).
Qed.

(** C2. The extractor filters account by account: an account of the tree
    that is no placeholder and whose type is not excluded is recorded under
    its full name, whatever its parent is (the walk goes below skipped
    accounts too) and whatever its balance is (zero included); and every
    recorded name is the full name of such an account, recorded with the
    balance of that account. *)
Theorem get_account_balances_per_account (book : Book) :
  (forall acc a,
     get_node (book_root book) acc = Some a ->
     acc_placeholder a = false ->
     acc_type a ∉ ACCOUNT_TYPES_TO_EXCLUDE ->
     is_Some (dict_get (get_account_balances book) (get_full_name book acc)))
  /\ (forall name balance,
        dict_get (get_account_balances book) name = Some balance ->
        exists acc a,
          get_node (book_root book) acc = Some a
          /\ acc_placeholder a = false
          /\ (acc_type a ∉ ACCOUNT_TYPES_TO_EXCLUDE)
          /\ get_full_name book acc = name
          /\ balance = GetBalance book acc).
Proof.
  rewrite get_account_balances_foldl. split.
  - intros acc a Ha Hp Ht. rewrite dict_get_foldl_set.
    destruct (last _) as [x|] eqn:Hl; [done|].
    apply last_None in Hl.
    assert (acc ∈ @nil AccountRef) as Hin; [|by inversion Hin].
    rewrite <- Hl. apply list_elem_of_filter. split.
    + split; [|done]. unfold GetPlaceholder, GetType. rewrite Ha, Hp.
      by rewrite bool_decide_eq_false_2.
    + apply elem_of_walk. by rewrite Ha.
  - intros name balance. rewrite dict_get_foldl_set.
    destruct (last _) as [x|] eqn:Hl; [|done]. intros [= <-].
    apply last_Some_elem_of, list_elem_of_filter in Hl as [[Hk Hn] Hw].
    apply elem_of_walk in Hw as [a Ha]. exists x, a.
    unfold GetPlaceholder, GetType in Hk. rewrite Ha in Hk.
    apply andb_true_iff in Hk as [Hp Ht].
    apply negb_true_iff in Hp, Ht. apply bool_decide_eq_false in Ht.
    done.
Qed.

(** ** The purge of the copied book *)

Lemma add_log_nil w : add_log w [] = w.
Proof. destruct w. unfold add_log. simpl. by rewrite app_nil_r. Qed.

Lemma add_log_app w l1 l2 : add_log (add_log w l1) l2 = add_log w (l1 ++ l2).
Proof. unfold add_log. simpl. by rewrite app_assoc. Qed.

Lemma for_each_app {A S : Type} (body : S -> A -> M S) l1 l2 s w :
  for_each body (l1 ++ l2) s w
  = match for_each body l1 s w with
    | (Ok s', w') => for_each body l2 s' w'
    | (Raise e, w') => (Raise e, w')
    end.
Proof.
  revert s w. induction l1 as [|x l1 IH]; intros s w; simpl; [done|].
  unfold mbind, M_bind. destruct (body s x w) as [[s'|e] w']; [apply IH|done].
Qed.

Lemma Destroy_foldl_fields book gs :
  book_root (foldl Destroy book gs) = book_root book
  /\ book_orphan_splits (foldl Destroy book gs) = book_orphan_splits book
  /\ book_table (foldl Destroy book gs) = book_table book
  /\ book_price_db (foldl Destroy book gs) = book_price_db book.
Proof.
  revert book. induction gs as [|g gs IH]; intros book; simpl; [done|].
  destruct (IH (Destroy book g)) as (-> & -> & -> & ->). done.
Qed.

Lemma Destroy_foldl_transactions book gs t :
  t ∈ book_transactions (foldl Destroy book gs)
  <-> t ∈ book_transactions book /\ trans_guid t ∉ gs.
Proof.
  revert book. induction gs as [|g gs IH]; intros book; simpl.
  - split; [intros H; split; [done | by intros H'; inversion H'] | by intros [? _]].
  - rewrite IH. simpl. rewrite list_elem_of_filter, not_elem_of_cons. tauto.
Qed.

(** The splits with a parent come first in the list of an account, then
    the splits without. *)
Lemma GetSplitList_parts book account :
  GetSplitList book account
  = filter (fun s => split_account (split_data s) = Some account)
      (book_transactions book ≫= splits_of)
    ++ (mkSplitObj None <$> orphans_of book account).
Proof.
  unfold GetSplitList, book_splits, orphans_of. rewrite filter_app. f_equal.
  induction (book_orphan_splits book) as [|s l IH]; [done|].
  rewrite fmap_cons, !filter_cons. simpl.
  destruct (decide (split_account s = Some account)); by rewrite IH.
Qed.

(** The inner loop over splits that all have a parent destroys the
    parents and logs nothing. *)
Lemma delete_split_parents account (splits : list SplitObj) :
  Forall (fun s => is_Some (parent s)) splits ->
  forall book w,
    for_each (delete_split account) splits book w
    = (Ok (foldl Destroy book (omap parent splits)), w).
Proof.
  induction 1 as [|s l [g Hg] _ IH]; intros book w; simpl; [done|].
  unfold mbind, M_bind, delete_split. rewrite Hg. simpl. apply IH.
Qed.

(** The inner loop over splits without parent logs a warning for each and
    leaves the book as it is. *)
Lemma delete_split_orphans account (l : list Split) book w :
  for_each (delete_split account) (mkSplitObj None <$> l) book w
  = (Ok book, add_log w ((fun _ => orphan_warning book account) <$> l)).
Proof.
  revert w. induction l as [|s l IH]; intros w; simpl.
  - by rewrite add_log_nil.
  - unfold mbind at 1, M_bind at 1. unfold delete_split. simpl.
    unfold mbind at 1, M_bind at 1. simpl. rewrite IH.
    unfold add_log, orphan_warning. simpl. by rewrite <- app_assoc.
Qed.

Lemma splits_of_parent t : Forall (fun s => is_Some (parent s)) (splits_of t).
Proof.
  unfold splits_of. apply Forall_fmap, Forall_forall. intros s _. simpl. eauto.
Qed.

Lemma elem_of_account_parents book account g :
  g ∈ account_parents book account
  <-> exists t, t ∈ book_transactions book /\ trans_guid t = g
                /\ posted_in t account.
Proof.
  unfold account_parents. rewrite list_elem_of_omap. split.
  - intros (s & Hs & Hp). apply list_elem_of_filter in Hs as [Ha Hs].
    apply list_elem_of_bind in Hs as (t & Hs & Ht).
    apply list_elem_of_fmap in Hs as (s0 & -> & Hs0). simpl in *.
    exists t. split; [done|]. split; [congruence|]. by exists s0.
  - intros (t & Ht & <- & s & Hs & Ha).
    exists (mkSplitObj (Some (trans_guid t)) s). split; [|done].
    apply list_elem_of_filter. split; [done|].
    apply list_elem_of_bind. exists t. split; [|done].
    by apply list_elem_of_fmap_2.
Qed.

Lemma purged_account_fields book account :
  book_root (purged_account book account) = book_root book
  /\ book_orphan_splits (purged_account book account)
     = book_orphan_splits book
  /\ book_table (purged_account book account) = book_table book
  /\ book_price_db (purged_account book account) = book_price_db book.
Proof. apply Destroy_foldl_fields. Qed.

Lemma purged_account_transactions book account t :
  t ∈ book_transactions (purged_account book account)
  <-> t ∈ book_transactions book
      /\ ~ exists t', t' ∈ book_transactions book
                      /\ trans_guid t' = trans_guid t
                      /\ posted_in t' account.
Proof.
  unfold purged_account.
  by rewrite Destroy_foldl_transactions, elem_of_account_parents.
Qed.

(** One turn of the outer loop. *)
Lemma delete_splits_of_run book account w :
  delete_splits_of book account w
  = (Ok (purged_account book account),
     add_log w (orphan_warnings book account)).
Proof.
  unfold delete_splits_of. rewrite GetSplitList_parts, for_each_app.
  rewrite delete_split_parents.
  2:{ apply Forall_forall. intros s Hs.
      apply list_elem_of_filter in Hs as [_ Hs].
      apply list_elem_of_bind in Hs as (t & Hs & _).
      pose proof (splits_of_parent t) as H. rewrite Forall_forall in H. auto. }
  rewrite delete_split_orphans. fold (account_parents book account).
  fold (purged_account book account).
  destruct (purged_account_fields book account) as (Hr & _).
  unfold orphan_warnings, orphan_warning, get_full_name. by rewrite Hr.
Qed.

Lemma orphan_warnings_ext book book' account :
  book_root book' = book_root book ->
  book_orphan_splits book' = book_orphan_splits book ->
  orphan_warnings book' account = orphan_warnings book account.
Proof.
  intros Hr Ho.
  unfold orphan_warnings, orphan_warning, orphans_of, get_full_name.
  by rewrite Hr, Ho.
Qed.

(** The outer loop never raises; it logs the warnings of the accounts in
    their order. *)
Lemma for_each_delete_run accounts : forall book w,
  for_each delete_splits_of accounts book w
  = (Ok (purged book accounts), add_log w (accounts ≫= orphan_warnings book)).
Proof.
  induction accounts as [|a accounts IH]; intros book w; simpl.
  - by rewrite add_log_nil.
  - unfold mbind at 1, M_bind at 1. rewrite delete_splits_of_run, IH.
    rewrite add_log_app. do 3 f_equal.
    destruct (purged_account_fields book a) as (Hr & Ho & _). clear IH.
    induction accounts as [|x l IHl]; simpl; [done|].
    f_equal; [|apply IHl]. by apply orphan_warnings_ext.
Qed.

(** The purge touches nothing but the transactions, and it leaves no
    transaction with a split in one of the accounts. *)
Lemma purged_spec accounts : forall book,
  book_root (purged book accounts) = book_root book
  /\ book_orphan_splits (purged book accounts) = book_orphan_splits book
  /\ book_table (purged book accounts) = book_table book
  /\ book_price_db (purged book accounts) = book_price_db book
  /\ (forall t, t ∈ book_transactions (purged book accounts) ->
        t ∈ book_transactions book)
  /\ (forall t account,
        t ∈ book_transactions (purged book accounts) ->
        account ∈ accounts -> ~ posted_in t account).
Proof.
  induction accounts as [|a accounts IH]; intros book; simpl.
  - do 5 (split; [done|]). intros t account _ H. inversion H.
  - destruct (purged_account_fields book a) as (Hr1 & Ho1 & Ht1 & Hp1).
    destruct (IH (purged_account book a))
      as (Hr & Ho & Ht & Hp & Hsub & Hgone).
    fold (purged (purged_account book a) accounts).
    do 4 (split; [congruence|]). split.
    + intros t H. by apply (purged_account_transactions book a), Hsub.
    + intros t account H Hin Hposted.
      apply elem_of_cons in Hin as [->|Hin]; [|by eapply Hgone].
      apply Hsub, purged_account_transactions in H as [H Hn].
      apply Hn. by exists t.
Qed.

(** ** The rollover preparer *)

(** What [prepare_new_year_file] does, case by case. *)
Lemma prepare_new_year_file_run previous_file new_file w :
  prepare_new_year_file previous_file new_file w
  = match w_files w !! new_file with
    | Some _ => (Raise (FileExistsError new_file), w)
    | None =>
        match w_files w !! previous_file with
        | None => (Raise (FileNotFoundError previous_file), w)
        | Some book =>
            (Ok (mkSession (length (w_sessions w)) new_file
                   (purged book (get_descendants book (get_root_account book)))),
             mkWorld (<[new_file := book]> (w_files w))
               (w_sessions w
                  ++ [mkSessionEntry new_file SESSION_NORMAL_OPEN true])
               (w_log w
                  ++ (get_descendants book (get_root_account book)
                        ≫= orphan_warnings book)))
        end
    end.
Proof.
  unfold prepare_new_year_file, os_path_exists.
  unfold mbind at 1, M_bind at 1.
  destruct (w_files w !! new_file) as [b|] eqn:Hnew.
  - rewrite bool_decide_eq_true_2 by eauto. done.
  - rewrite bool_decide_eq_false_2 by (intros [? ?]; done).
    unfold mbind at 1, M_bind at 1, shutil_copyfile.
    destruct (w_files w !! previous_file) as [book|] eqn:Hprev; [|done].
    unfold mbind at 1, M_bind at 1, Session_open. simpl.
    rewrite lookup_insert_eq. simpl.
    unfold mbind at 1, M_bind at 1. rewrite for_each_delete_run. done.
Qed.

(** ** The opening transaction synthesizer *)

Lemma tree_extends_valid r r' p :
  tree_extends r r' -> is_Some (get_node r p) -> is_Some (get_node r' p).
Proof. intros H [a Ha]. destruct (H p a Ha) as (a' & Ha' & _). eauto. Qed.

(** The commodity of an account does not change when the tree grows. *)
Lemma GetCommodity_extends book book' p :
  tree_extends (book_root book) (book_root book') ->
  is_Some (get_node (book_root book) p) ->
  GetCommodity book' p = GetCommodity book p.
Proof.
  intros H [a Ha]. destruct (H p a Ha) as (a' & Ha' & _ & _ & _ & Hc).
  unfold GetCommodity. rewrite Ha, Ha'. simpl. done.
Qed.

Lemma lookup_by_full_name_valid book name r :
  lookup_by_full_name book name = Some r ->
  is_Some (get_node (book_root book) r).
Proof. apply lookup_by_names_valid. Qed.

Lemma book_append_child_spec book p child book' r :
  is_Some (get_node (book_root book) p) ->
  book_append_child book p child = (book', r) ->
  tree_extends (book_root book) (book_root book')
  /\ get_node (book_root book') r = Some child
  /\ book_transactions book' = book_transactions book
  /\ book_orphan_splits book' = book_orphan_splits book
  /\ book_table book' = book_table book
  /\ book_price_db book' = book_price_db book.
Proof.
  intros [n Hn] [= <- <-]. simpl. split; [apply append_child_extends|].
  split; [|done]. unfold child_ref. rewrite Hn. by apply append_child_new.
Qed.

Lemma opening_account_spec book name book' account :
  opening_account book name = (book', account) ->
  tree_extends (book_root book) (book_root book')
  /\ is_Some (get_node (book_root book') account)
  /\ book_transactions book' = book_transactions book
  /\ book_orphan_splits book' = book_orphan_splits book
  /\ book_table book' = book_table book
  /\ book_price_db book' = book_price_db book.
Proof.
  unfold opening_account.
  destruct (lookup_by_full_name book name) as [found|] eqn:Hl.
  - intros [= <- <-]. split; [apply tree_extends_refl|].
    split; [by eapply lookup_by_full_name_valid | done].
  - intros H. apply book_append_child_spec in H; [|by eexists].
    destruct H as (? & -> & ?). eauto.
Qed.

(** The body of the loop, run on an item. *)
Lemma main_opening_transaction_run opening_date text currency price_db
    equity_account book name balance :
  main_opening_transaction opening_date (PyStr text) currency price_db
    equity_account book (name, balance)
  = if bool_decide (balance ≠ 0) then
      let '(book1, account) := opening_account book name in
      Ok (CommitEdit book1
            (opening_transaction (new_guid book1) text opening_date currency
               account equity_account balance
               (equity_value_of price_db opening_date balance
                  (GetCommodity book1 account)
                  (GetCommodity book1 equity_account))))
    else Ok book.
Proof.
  unfold main_opening_transaction, opening_account.
  destruct (bool_decide (balance ≠ 0)); [|done].
  destruct (lookup_by_full_name book name) as [found|];
    destruct currency; reflexivity.
Qed.

Lemma for_each_result_cons {A S : Type} (body : S -> A -> result S) x l s :
  for_each_result body (x :: l) s
  = match body s x with
    | Ok s' => for_each_result body l s'
    | Raise e => Raise e
    end.
Proof. reflexivity. Qed.

Lemma opens_extends final final' opening_date text currency price_db
    equity_account item t :
  tree_extends (book_root final) (book_root final') ->
  is_Some (get_node (book_root final) equity_account) ->
  opens final opening_date text currency price_db equity_account item t ->
  opens final' opening_date text currency price_db equity_account item t.
Proof.
  intros He Hq (account & Ha & Ht). exists account.
  split; [by eapply tree_extends_valid|].
  by rewrite !(GetCommodity_extends final final').
Qed.

(** The loop over the balances: it does not raise when the text is a
    string; it adds one opening transaction for each item with a balance
    other than zero, in the order of the items, and nothing else. *)
Lemma opening_transactions_spec opening_date text currency price_db
    equity_account account_balances : forall book,
  is_Some (get_node (book_root book) equity_account) ->
  exists book' created,
    for_each_result
      (main_opening_transaction opening_date (PyStr text) currency price_db
         equity_account) account_balances book = Ok book'
    /\ book_transactions book' = book_transactions book ++ created
    /\ tree_extends (book_root book) (book_root book')
    /\ book_orphan_splits book' = book_orphan_splits book
    /\ book_table book' = book_table book
    /\ book_price_db book' = book_price_db book
    /\ Forall2
         (opens book' opening_date text currency price_db equity_account)
         (nonzero_items account_balances) created.
Proof.
  unfold nonzero_items.
  induction account_balances as [|[name balance] items IH]; intros book Hq.
  - exists book, []. simpl. rewrite app_nil_r.
    do 2 (split; [done|]). split; [apply tree_extends_refl|].
    do 3 (split; [done|]). constructor.
  - rewrite for_each_result_cons, main_opening_transaction_run, filter_cons.
    cbn [snd].
    destruct (decide (balance ≠ 0)) as [Hb|Hb].
    + rewrite bool_decide_eq_true_2 by done.
      destruct (opening_account book name) as [book1 account] eqn:Ho.
      apply opening_account_spec in Ho as (He1 & Ha & Ht1 & Ho1 & Htb1 & Hp1).
      set (t := opening_transaction _ _ _ _ _ _ _ _).
      destruct (IH (CommitEdit book1 t)) as
        (book' & created & E & Ht & He & Ho & Htb & Hp & Hall).
      { simpl. by eapply tree_extends_valid. }
      exists book', (t :: created). simpl in *.
      split; [done|]. split; [by rewrite Ht, Ht1, <- app_assoc|].
      split; [by eapply tree_extends_trans|].
      do 3 (split; [congruence|]).
      constructor; [|done].
      apply (opens_extends book1); [done | by eapply tree_extends_valid |].
      exists account. split; [done|]. done.
    + rewrite bool_decide_eq_false_2 by done. by apply IH.
Qed.

Lemma equity_placeholder_spec book name book' placeholder :
  equity_placeholder book name = (book', placeholder) ->
  tree_extends (book_root book) (book_root book')
  /\ is_Some (get_node (book_root book') placeholder)
  /\ book_transactions book' = book_transactions book
  /\ book_orphan_splits book' = book_orphan_splits book
  /\ book_table book' = book_table book
  /\ book_price_db book' = book_price_db book.
Proof.
  unfold equity_placeholder.
  destruct (lookup_by_full_name book name) as [found|] eqn:Hl.
  - intros [= <- <-]. split; [apply tree_extends_refl|].
    split; [by eapply lookup_by_full_name_valid | done].
  - intros H. apply book_append_child_spec in H; [|by eexists].
    destruct H as (? & -> & ?). eauto.
Qed.

(** Lines 118 to 141, run on names that are strings. *)
Lemma main_equity_accounts_run equity_name equity_opening_name currency book :
  main_equity_accounts (PyStr equity_name) (PyStr equity_opening_name)
    currency book
  = let '(book1, placeholder) := equity_placeholder book equity_name in
    match lookup_by_full_name book1
            (equity_name +:+ "." +:+ equity_opening_name) with
    | Some found => Ok (book1, found)
    | None =>
        Ok (book_append_child book1 placeholder
              (SetCommodity
                 (SetType (SetName Account_new equity_opening_name)
                    ACCT_TYPE_EQUITY) currency))
    end.
Proof.
  cbv beta iota delta
    [main_equity_accounts equity_placeholder mbind result_bind as_str].
  destruct (lookup_by_full_name book equity_name); reflexivity.
Qed.

Lemma main_equity_accounts_spec equity_name equity_opening_name currency book :
  exists book1 equity_account,
    main_equity_accounts (PyStr equity_name) (PyStr equity_opening_name)
      currency book = Ok (book1, equity_account)
    /\ tree_extends (book_root book) (book_root book1)
    /\ is_Some (get_node (book_root book1) equity_account)
    /\ book_transactions book1 = book_transactions book
    /\ book_orphan_splits book1 = book_orphan_splits book
    /\ book_table book1 = book_table book
    /\ book_price_db book1 = book_price_db book.
Proof.
  rewrite main_equity_accounts_run.
  destruct (equity_placeholder book equity_name) as [book0 placeholder] eqn:Hp.
  apply equity_placeholder_spec in Hp as (He0 & Hv0 & Ht0 & Ho0 & Htb0 & Hp0).
  destruct (lookup_by_full_name book0 _) as [found|] eqn:Hl.
  - exists book0, found. split; [done|]. split; [done|].
    split; [by eapply lookup_by_full_name_valid | done].
  - destruct (book_append_child book0 placeholder _) as [book1 eq] eqn:Hc.
    apply book_append_child_spec in Hc as (He1 & Hv1 & Ht1 & Ho1 & Htb1 & Hp1);
      [|done].
    exists book1, eq. split; [done|].
    split; [by eapply tree_extends_trans|].
    split; [by rewrite Hv1 | repeat split; congruence].
Qed.

(** Lines 114 to 181, run on a configuration of strings. *)
Lemma main_synthesize_run opening_date equity_name equity_opening_name text
    currency account_balances book :
  main_synthesize opening_date (PyStr equity_name)
    (PyStr equity_opening_name) (PyStr text) (PyStr currency)
    account_balances book
  = match main_equity_accounts (PyStr equity_name)
            (PyStr equity_opening_name)
            (table_lookup book "CURRENCY" currency) book with
    | Ok (book1, equity_account) =>
        for_each_result
          (main_opening_transaction opening_date (PyStr text)
             (table_lookup book "CURRENCY" currency) (book_price_db book)
             equity_account) account_balances book1
    | Raise e => Raise e
    end.
Proof.
  unfold main_synthesize. simpl. unfold mbind, result_bind.
  by destruct (main_equity_accounts _ _ _ _) as [[? ?]|].
Qed.

(** The synthesizer on a configuration of strings: it does not raise; it
    gets the equity account and adds the opening transactions, one for
    each item with a balance other than zero. *)
Lemma main_synthesize_spec opening_date equity_name equity_opening_name text
    currency account_balances book :
  exists book1 equity_account book' created,
    main_equity_accounts (PyStr equity_name) (PyStr equity_opening_name)
      (table_lookup book "CURRENCY" currency) book
    = Ok (book1, equity_account)
    /\ main_synthesize opening_date (PyStr equity_name)
         (PyStr equity_opening_name) (PyStr text) (PyStr currency)
         account_balances book = Ok book'
    /\ book_transactions book' = book_transactions book ++ created
    /\ tree_extends (book_root book) (book_root book1)
    /\ tree_extends (book_root book1) (book_root book')
    /\ is_Some (get_node (book_root book1) equity_account)
    /\ book_orphan_splits book' = book_orphan_splits book
    /\ book_table book' = book_table book
    /\ book_price_db book' = book_price_db book
    /\ Forall2
         (opens book' opening_date text
            (table_lookup book "CURRENCY" currency) (book_price_db book)
            equity_account)
         (nonzero_items account_balances) created.
Proof.
  rewrite main_synthesize_run.
  destruct (main_equity_accounts_spec equity_name equity_opening_name
              (table_lookup book "CURRENCY" currency) book)
    as (book1 & eq & E1 & He1 & Hv1 & Ht1 & Ho1 & Htb1 & Hp1).
  destruct (opening_transactions_spec opening_date text
              (table_lookup book "CURRENCY" currency) (book_price_db book)
              eq account_balances book1 Hv1)
    as (book' & created & E & Ht & He & Ho & Htb & Hp & Hall).
  exists book1, eq, book', created. rewrite E1.
  split; [done|]. split; [done|]. split; [congruence|].
  do 3 (split; [done|]). do 3 (split; [congruence|]). done.
Qed.

Lemma for_each_result_app {A S : Type} (body : S -> A -> result S) l1 l2 s :
  for_each_result body (l1 ++ l2) s
  = match for_each_result body l1 s with
    | Ok s' => for_each_result body l2 s'
    | Raise e => Raise e
    end.
Proof.
  revert s. induction l1 as [|x l1 IH]; intros s; [done|].
  rewrite <- app_comm_cons, !for_each_result_cons.
  destruct (body s x); [apply IH | done].
Qed.

(** The opening transaction of one item of the balances.  When the turn
    of the item comes, the book is what the loop has made of the items
    before it; the account of the asset split is the account that is found
    in this book under the name of the item, or else the bare account that
    the body appends below the root, and the commodities are read in this
    book. *)
Lemma opening_transaction_at opening_date text currency price_db
    equity_account before item after book :
  is_Some (get_node (book_root book) equity_account) ->
  item.2 ≠ 0 ->
  exists book_i book' t,
    for_each_result
      (main_opening_transaction opening_date (PyStr text) currency price_db
         equity_account) before book = Ok book_i
    /\ for_each_result
         (main_opening_transaction opening_date (PyStr text) currency
            price_db equity_account) (before ++ item :: after) book
       = Ok book'
    /\ book_price_db book' = book_price_db book
    /\ book_transactions book'
       !! (length (book_transactions book)
           + length (nonzero_items before))%nat = Some t
    /\ exists account asset_commodity,
         match lookup_by_full_name book_i item.1 with
         | Some found =>
             account = found /\ asset_commodity = GetCommodity book_i found
         | None =>
             account = [length (acc_children (book_root book_i))]
             /\ asset_commodity = None
             /\ exists a,
                  get_node (book_root book') account = Some a
                  /\ same_account
                       (mkAccount item.1 ACCT_TYPE_NONE false None []) a
         end
         /\ t = opening_transaction (trans_guid t) text opening_date currency
                  account equity_account item.2
                  (equity_value_of price_db opening_date item.2
                     asset_commodity (GetCommodity book_i equity_account)).
Proof.
  intros Hq Hb. destruct item as [name balance]. cbn [fst snd] in *.
  destruct (opening_transactions_spec opening_date text currency price_db
              equity_account before book Hq)
    as (book_i & created & E & Ht & He & _ & _ & Hp & Hall).
  assert (is_Some (get_node (book_root book_i) equity_account)) as Hqi
    by (by eapply tree_extends_valid).
  rewrite for_each_result_app, E, for_each_result_cons,
    main_opening_transaction_run, bool_decide_eq_true_2 by done.
  destruct (opening_account book_i name) as [book2 account] eqn:Ho.
  pose proof (opening_account_spec _ _ _ _ Ho) as (He2 & Ha2 & Ht2 & _ & _ & Hp2).
  set (t := opening_transaction _ _ _ _ _ _ _ _).
  destruct (opening_transactions_spec opening_date text currency price_db
              equity_account after (CommitEdit book2 t))
    as (book' & created' & E' & Ht' & He' & _ & _ & Hp' & _).
  { simpl. by eapply tree_extends_valid. }
  exists book_i, book', t. split; [done|]. split; [done|].
  split; [simpl in Hp'; congruence|].
  split.
  { rewrite Ht'. simpl. rewrite Ht2, Ht, (Forall2_length _ _ _ Hall).
    rewrite <- length_app, <- app_assoc. apply list_lookup_middle. done. }
  unfold opening_account in Ho.
  destruct (lookup_by_full_name book_i name) as [found|] eqn:Hl.
  - injection Ho as <- <-. by exists found, (GetCommodity book_i found).
  - assert (account = [length (acc_children (book_root book_i))]) as ->.
    { by injection Ho as _ <-. }
    apply book_append_child_spec in Ho as (_ & Hn & _); [|by eexists].
    exists [length (acc_children (book_root book_i))], None.
    split.
    + do 2 (split; [done|]).
      destruct (He' _ _ Hn) as (a & Hna & Hs). by exists a.
    + subst t. simpl. f_equal. f_equal.
      * unfold GetCommodity. by rewrite Hn.
      * by apply GetCommodity_extends.
Qed.

(** The names on the way to a position found by name are the names that
    were looked up. *)
Lemma lookup_by_names_path names : forall a r,
  lookup_by_names names a = Some r -> path_names a r = names.
Proof.
  induction names as [|n rest IH]; intros a r H; simpl in H; [done|].
  apply scan_children_Some in H as (k & c & Hk & Hf). simpl in Hf.
  destruct (decide (acc_name c = n)) as [<-|]; [|done].
  destruct rest as [|n' rest'].
  - injection Hf as <-. simpl. by rewrite Hk.
  - destruct (acc_children c); [done|].
    destruct (lookup_by_names (n' :: rest') c) as [r'|] eqn:Hr; [|done].
    injection Hf as <-. simpl. rewrite Hk. f_equal. by apply IH.
Qed.

(** The names on the way to a position do not change when the tree
    grows. *)
Lemma path_names_extends p : forall r r',
  tree_extends r r' -> is_Some (get_node r p) ->
  path_names r' p = path_names r p.
Proof.
  induction p as [|i p IH]; intros r r' He Hv; [done|].
  simpl in *.
  destruct (acc_children r !! i) as [c|] eqn:Hc; [|by destruct Hv].
  destruct (He [i] c) as (c' & Hc' & Hn & _); [simpl; by rewrite Hc|].
  simpl in Hc'.
  destruct (acc_children r' !! i) as [c''|] eqn:Hc''; [|done].
  injection Hc' as ->. rewrite Hn. f_equal. apply IH; [|done].
  intros q a Ha. destruct (He (i :: q) a) as (a' & Ha' & Hs).
  { simpl. by rewrite Hc. }
  simpl in Ha'. rewrite Hc'' in Ha'. by exists a'.
Qed.

(** The loop over the balances, with the name of the account of each asset
    split: the names on the way to the account are the pieces of the name
    of the item, or the account is the bare account that has the whole
    name of the item as name. *)
Lemma opening_transactions_named opening_date text currency price_db
    equity_account account_balances : forall book,
  is_Some (get_node (book_root book) equity_account) ->
  exists book' created,
    for_each_result
      (main_opening_transaction opening_date (PyStr text) currency price_db
         equity_account) account_balances book = Ok book'
    /\ book_transactions book' = book_transactions book ++ created
    /\ tree_extends (book_root book) (book_root book')
    /\ Forall2
         (fun item t =>
            exists account,
              (path_names (book_root book') account
               = strsplit item.1 account_separator
               \/ path_names (book_root book') account = [item.1])
              /\ t = opening_transaction (trans_guid t) text opening_date
                       currency account equity_account item.2
                       (equity_value_of price_db opening_date item.2
                          (GetCommodity book' account)
                          (GetCommodity book' equity_account)))
         (nonzero_items account_balances) created.
Proof.
  unfold nonzero_items.
  induction account_balances as [|[name balance] items IH]; intros book Hq.
  - exists book, []. simpl. rewrite app_nil_r.
    do 2 (split; [done|]). split; [apply tree_extends_refl | constructor].
  - rewrite for_each_result_cons, main_opening_transaction_run, filter_cons.
    cbn [snd].
    destruct (decide (balance ≠ 0)) as [Hb|Hb].
    + rewrite bool_decide_eq_true_2 by done.
      destruct (opening_account book name) as [book1 account] eqn:Ho.
      pose proof (opening_account_spec _ _ _ _ Ho)
        as (He1 & Ha & Ht1 & _).
      assert (path_names (book_root book1) account
              = strsplit name account_separator
              \/ path_names (book_root book1) account = [name]) as Hn.
      { unfold opening_account in Ho.
        destruct (lookup_by_full_name book name) as [found|] eqn:Hl.
        - injection Ho as <- <-. left. by apply lookup_by_names_path.
        - right.
          assert (account = [length (acc_children (book_root book))]) as ->.
          { by injection Ho as _ <-. }
          apply book_append_child_spec in Ho as (_ & Hc & _); [|by eexists].
          simpl in *.
          by destruct (acc_children (book_root book1) !! _) as [c|];
            [injection Hc as ->|]. }
      set (t := opening_transaction _ _ _ _ _ _ _ _).
      destruct (IH (CommitEdit book1 t)) as
        (book' & created & E & Ht & He & Hall).
      { simpl. by eapply tree_extends_valid. }
      exists book', (t :: created). simpl in He.
      split; [done|].
      split; [rewrite Ht; simpl; by rewrite Ht1, <- app_assoc|].
      split; [by eapply tree_extends_trans|].
      constructor; [|done].
      exists account. rewrite (path_names_extends _ _ _ He Ha).
      split; [done|]. cbn [fst snd].
      rewrite !(GetCommodity_extends book1 book') by
        (done || by eapply tree_extends_valid).
      done.
    + rewrite bool_decide_eq_false_2 by done. by apply IH.
Qed.

(** C1. The synthesizer adds exactly one opening transaction for each item
    of the balances whose balance is not zero, in the order of the items,
    and none for an item whose balance is zero.  Each of these
    transactions has exactly two splits.  The first is a split of the
    account of the item, that is, the names on the way to the account are
    the pieces of the name of the item, or the account is the bare account
    that has the whole name as name; it has the balance as amount.  The
    second is a split of the equity account that lines 118 to 141 have
    returned.  The equity value is computed from the balance and the
    commodities of these two accounts; the asset split has it as value,
    the equity split has it negated as value, and the two values sum to
    zero. *)
Theorem main_synthesize_one_balanced_transaction_per_nonzero_balance
    opening_date equity_name equity_opening_name text currency
    account_balances book :
  exists book1 equity_account book' created,
    main_equity_accounts (PyStr equity_name) (PyStr equity_opening_name)
      (table_lookup book "CURRENCY" currency) book
    = Ok (book1, equity_account)
    /\ main_synthesize opening_date (PyStr equity_name)
         (PyStr equity_opening_name) (PyStr text) (PyStr currency)
         account_balances book = Ok book'
    /\ book_transactions book' = book_transactions book ++ created
    /\ Forall2
         (fun item t =>
            exists account equity_value split_asset split_equity,
              trans_splits t = [split_asset; split_equity]
              /\ split_account split_asset = Some account
              /\ (path_names (book_root book') account
                  = strsplit item.1 account_separator
                  \/ path_names (book_root book') account = [item.1])
              /\ split_account split_equity = Some equity_account
              /\ equity_value
                 = (if bool_decide (GetCommodity book' account
                                    = GetCommodity book' equity_account)
                    then item.2
                    else convert_balance_nearest_price_t64
                           (book_price_db book) item.2
                           (GetCommodity book' account)
                           (GetCommodity book' equity_account) opening_date)
              /\ split_amount split_asset = item.2
              /\ split_value split_asset = equity_value
              /\ split_value split_equity = - equity_value
              /\ split_value split_asset + split_value split_equity = 0)
         (filter (fun item => item.2 ≠ 0) account_balances) created.
Proof.
  rewrite main_synthesize_run.
  destruct (main_equity_accounts_spec equity_name equity_opening_name
              (table_lookup book "CURRENCY" currency) book)
    as (book1 & eq & E1 & _ & Hv1 & Ht1 & _).
  destruct (opening_transactions_named opening_date text
              (table_lookup book "CURRENCY" currency) (book_price_db book)
              eq account_balances book1 Hv1)
    as (book' & created & E & Ht & _ & Hall).
  exists book1, eq, book', created. rewrite E1.
  do 2 (split; [done|]). split; [congruence|].
  eapply Forall2_impl; [exact Hall|].
  intros item t (account & Hn & Et). rewrite Et. simpl.
  eexists account, _, _, _. split; [reflexivity|]. simpl.
  do 3 (split; [done|]). split; [reflexivity|].
  do 3 (split; [done|]). apply Qcplus_opp_r.
Qed.

(** C3. The opening transaction of an item of the balances whose balance
    is not zero is, among the transactions of the book that the
    synthesizer returns, the one after the transactions that were there
    and those of the items before it.  Its equity split is a split of the
    equity account that lines 118 to 141 have returned.  Its asset split
    is a split of the account that is found under the name of the item in
    the book that the loop has made of the items before, or else of the
    bare account that is appended below the root for this name, which has
    no commodity.  The equity value, which the asset split has as value
    and the equity split negated, is the balance itself when the commodity
    of this asset account is the commodity of this equity account, and
    otherwise what the price database of the new book makes of the
    balance, from the commodity of the asset account to that of the equity
    account, at the opening date. *)
Theorem main_synthesize_equity_value
    opening_date equity_name equity_opening_name text currency
    before item after book :
  item.2 ≠ 0 ->
  exists book1 equity_account book_i book' t,
    main_equity_accounts (PyStr equity_name) (PyStr equity_opening_name)
      (table_lookup book "CURRENCY" currency) book
    = Ok (book1, equity_account)
    /\ for_each_result
         (main_opening_transaction opening_date (PyStr text)
            (table_lookup book "CURRENCY" currency) (book_price_db book)
            equity_account) before book1 = Ok book_i
    /\ main_synthesize opening_date (PyStr equity_name)
         (PyStr equity_opening_name) (PyStr text) (PyStr currency)
         (before ++ item :: after) book = Ok book'
    /\ book_transactions book'
       !! (length (book_transactions book)
           + length (filter (fun entry => entry.2 ≠ 0%Qc) before))%nat
       = Some t
    /\ exists account asset_commodity equity_commodity equity_value,
         match lookup_by_full_name book_i item.1 with
         | Some found =>
             account = found /\ asset_commodity = GetCommodity book_i found
         | None =>
             account = [length (acc_children (book_root book_i))]
             /\ asset_commodity = None
             /\ exists a,
                  get_node (book_root book') account = Some a
                  /\ same_account
                       (mkAccount item.1 ACCT_TYPE_NONE false None []) a
         end
         /\ equity_commodity = GetCommodity book_i equity_account
         /\ equity_value
            = (if bool_decide (asset_commodity = equity_commodity)
               then item.2
               else convert_balance_nearest_price_t64 (book_price_db book)
                      item.2 asset_commodity equity_commodity opening_date)
         /\ trans_splits t
            = [mkSplit (Some account) item.2 equity_value;
               mkSplit (Some equity_account) (- equity_value)
                 (- equity_value)].
Proof.
  intros Hb. rewrite main_synthesize_run.
  destruct (main_equity_accounts_spec equity_name equity_opening_name
              (table_lookup book "CURRENCY" currency) book)
    as (book1 & eq & E1 & _ & Hv1 & Ht1 & _ & _ & Hp1).
  destruct (opening_transaction_at opening_date text
              (table_lookup book "CURRENCY" currency) (book_price_db book)
              eq before item after book1 Hv1 Hb)
    as (book_i & book' & t & Ei & E & Hp & Hi & account & asset_commodity
        & Ha & Et).
  exists book1, eq, book_i, book', t. rewrite E1.
  do 3 (split; [done|]). split; [by rewrite <- Ht1|].
  eexists account, asset_commodity, (GetCommodity book_i eq), _.
  split; [done|]. split; [done|]. split; [reflexivity|].
  rewrite Et. reflexivity.
Qed.

(** C7. In every opening transaction the asset split has the balance as
    amount and the equity value as value, whatever the currency of the
    transaction is, and the equity split has the negated equity value as
    amount and as value. *)
Theorem main_synthesize_split_fields
    opening_date equity_name equity_opening_name text currency
    account_balances book :
  exists book' created equity_account,
    main_synthesize opening_date (PyStr equity_name)
      (PyStr equity_opening_name) (PyStr text) (PyStr currency)
      account_balances book = Ok book'
    /\ book_transactions book' = book_transactions book ++ created
    /\ Forall2
         (fun item t =>
            exists account equity_value,
              equity_value
              = equity_value_of (book_price_db book') opening_date item.2
                  (GetCommodity book' account)
                  (GetCommodity book' equity_account)
              /\ trans_currency t = table_lookup book' "CURRENCY" currency
              /\ trans_splits t
                 = [mkSplit (Some account) item.2 equity_value;
                    mkSplit (Some equity_account) (- equity_value)
                      (- equity_value)])
         (filter (fun item => item.2 ≠ 0) account_balances) created.
Proof.
  destruct (main_synthesize_spec opening_date equity_name equity_opening_name
              text currency account_balances book)
    as (book1 & eq & book' & created & _ & E & Ht & _ & _ & _ & _ & Htb & Hp
        & Hall).
  exists book', created, eq. split; [done|]. split; [done|].
  eapply Forall2_impl; [exact Hall|].
  intros item t (account & _ & Et). rewrite Et, Hp. simpl.
  eexists account, _. split; [reflexivity|].
  unfold table_lookup. by rewrite Htb.
Qed.

Lemma opens_equity_split final opening_date text currency price_db
    equity_account items created :
  Forall2 (opens final opening_date text currency price_db equity_account)
    items created ->
  Forall
    (fun t => exists split_asset split_equity,
       trans_splits t = [split_asset; split_equity]
       /\ split_account split_equity = Some equity_account)
    created.
Proof.
  induction 1 as [|item t items created (account & _ & Et) _ IH];
    constructor; [|done].
  rewrite Et. simpl. by eexists _, _.
Qed.

(** C10. An account found under the equity name, or under the dot-joined
    full name of the opening balances account, is used as it is.  When
    both are found, lines 118 to 141 return the book as it was, with the
    account found under the full name as equity account.  When the
    placeholder is found and the opening balances account is not, the one
    change to the book is a new last child of the account that was found,
    and this child is the equity account: no second placeholder is made,
    and the placeholder keeps its name, type, placeholder flag and
    commodity, whatever these are.  When no placeholder is found and one
    is appended below the root, an account that is then found under the
    full name is returned with nothing more added.  After these lines the
    loop leaves every account of the book at its place with its name,
    type, placeholder flag and commodity, and the equity split of every
    opening transaction is a split of the equity account that these lines
    have returned. *)
Theorem main_synthesize_reuses_equity_accounts
    opening_date equity_name equity_opening_name text currency
    account_balances book :
  (forall placeholder,
     lookup_by_full_name book equity_name = Some placeholder ->
     (forall equity_account,
        lookup_by_full_name book
          (equity_name +:+ "." +:+ equity_opening_name)
        = Some equity_account ->
        main_equity_accounts (PyStr equity_name) (PyStr equity_opening_name)
          (table_lookup book "CURRENCY" currency) book
        = Ok (book, equity_account))
     /\ (lookup_by_full_name book
           (equity_name +:+ "." +:+ equity_opening_name) = None ->
         exists parent_account book1,
           get_node (book_root book) placeholder = Some parent_account
           /\ main_equity_accounts (PyStr equity_name)
                (PyStr equity_opening_name)
                (table_lookup book "CURRENCY" currency) book
              = Ok (book1,
                    placeholder ++ [length (acc_children parent_account)])
           /\ book1
              = with_root book
                  (append_child (book_root book) placeholder
                     (mkAccount equity_opening_name ACCT_TYPE_EQUITY false
                        (table_lookup book "CURRENCY" currency) []))
           /\ get_node (book_root book1) placeholder
              = Some (with_children parent_account
                        (acc_children parent_account
                         ++ [mkAccount equity_opening_name ACCT_TYPE_EQUITY
                               false (table_lookup book "CURRENCY" currency)
                               []]))
           /\ length (acc_children (book_root book1))
              = length (acc_children (book_root book))))
  /\ (lookup_by_full_name book equity_name = None ->
      forall equity_account,
        lookup_by_full_name
          (with_root book
             (append_child (book_root book) []
                (mkAccount equity_name ACCT_TYPE_EQUITY true None [])))
          (equity_name +:+ "." +:+ equity_opening_name)
        = Some equity_account ->
        main_equity_accounts (PyStr equity_name) (PyStr equity_opening_name)
          (table_lookup book "CURRENCY" currency) book
        = Ok (with_root book
                (append_child (book_root book) []
                   (mkAccount equity_name ACCT_TYPE_EQUITY true None [])),
              equity_account))
  /\ (forall book1 equity_account,
        main_equity_accounts (PyStr equity_name) (PyStr equity_opening_name)
          (table_lookup book "CURRENCY" currency) book
        = Ok (book1, equity_account) ->
        exists book' created,
          main_synthesize opening_date (PyStr equity_name)
            (PyStr equity_opening_name) (PyStr text) (PyStr currency)
            account_balances book = Ok book'
          /\ tree_extends (book_root book) (book_root book1)
          /\ tree_extends (book_root book1) (book_root book')
          /\ book_transactions book' = book_transactions book ++ created
          /\ Forall
               (fun t => exists split_asset split_equity,
                  trans_splits t = [split_asset; split_equity]
                  /\ split_account split_equity = Some equity_account)
               created).
Proof.
  destruct (main_synthesize_spec opening_date equity_name equity_opening_name
              text currency account_balances book)
    as (book1 & eq & book' & created & E1 & E & Ht & He1 & He & _ & _ & _ & _
        & Hall).
  split; [|split].
  - intros placeholder Hp. split.
    + intros equity_account Hl. rewrite main_equity_accounts_run.
      unfold equity_placeholder. by rewrite Hp, Hl.
    + intros Hl.
      destruct (lookup_by_full_name_valid _ _ _ Hp) as [parent_account Hn].
      eexists parent_account, _. split; [done|].
      split; [|split; [reflexivity|]].
      * rewrite main_equity_accounts_run. unfold equity_placeholder.
        rewrite Hp, Hl. unfold book_append_child, child_ref. rewrite Hn.
        by destruct (table_lookup book "CURRENCY" currency).
      * simpl. split; [by apply append_child_self|].
        apply append_child_length. by eapply lookup_by_names_nonempty.
  - intros Hp equity_account Hl. rewrite main_equity_accounts_run.
    unfold equity_placeholder. rewrite Hp.
    change (book_append_child book (get_root_account book)
              (SetPlaceholder
                 (SetType (SetName Account_new equity_name) ACCT_TYPE_EQUITY)
                 true))
      with (with_root book
              (append_child (book_root book) []
                 (mkAccount equity_name ACCT_TYPE_EQUITY true None [])),
            child_ref (book_root book) []).
    cbv beta iota. by rewrite Hl.
  - intros book1' equity_account E1'. rewrite E1' in E1.
    injection E1 as <- <-. exists book', created.
    do 4 (split; [done|]). by eapply opens_equity_split.
Qed.

(** C4 (amended). After [prepare_new_year_file] has returned a session,
    the book of the session has the account tree of the previous book and
    its splits without parent transaction; each of its transactions is one
    of the previous book that has no split in an account below the root.
    So it has no transaction and no split when, in the previous book,
    every split has a parent transaction and every transaction has a split
    in an account below the root. *)
Theorem prepare_new_year_file_purged previous_file new_file w session w'
    book_prev :
  prepare_new_year_file previous_file new_file w = (Ok session, w') ->
  w_files w !! previous_file = Some book_prev ->
  book_root (session_book session) = book_root book_prev
  /\ book_orphan_splits (session_book session) = book_orphan_splits book_prev
  /\ (forall t,
        t ∈ book_transactions (session_book session) ->
        t ∈ book_transactions book_prev
        /\ forall account,
             account <> [] ->
             is_Some (get_node (book_root book_prev) account) ->
             ~ posted_in t account)
  /\ (book_orphan_splits book_prev = [] ->
      (forall t, t ∈ book_transactions book_prev ->
         exists account,
           account <> []
           /\ is_Some (get_node (book_root book_prev) account)
           /\ posted_in t account) ->
      book_transactions (session_book session) = []
      /\ book_splits (session_book session) = []).
Proof.
  rewrite prepare_new_year_file_run. intros H Hprev. rewrite Hprev in H.
  destruct (w_files w !! new_file); [done|]. injection H as <- <-. simpl.
  destruct (purged_spec (get_descendants book_prev (get_root_account book_prev))
              book_prev) as (Hr & Ho & _ & _ & Hsub & Hgone).
  split; [done|]. split; [done|].
  assert (forall t,
            t ∈ book_transactions
                  (purged book_prev
                     (get_descendants book_prev (get_root_account book_prev))) ->
            t ∈ book_transactions book_prev
            /\ forall account,
                 account <> [] ->
                 is_Some (get_node (book_root book_prev) account) ->
                 ~ posted_in t account) as Hleft.
  { intros t Ht. split; [by apply Hsub|]. intros account Hne Hv.
    apply (Hgone t account Ht). by apply elem_of_get_descendants. }
  split; [done|]. intros Hno Hall.
  assert (book_transactions
            (purged book_prev
               (get_descendants book_prev (get_root_account book_prev))) = [])
    as Hnil.
  { apply elem_of_nil_inv. intros t Ht.
    destruct (Hleft t Ht) as [Hin Hn].
    destruct (Hall t Hin) as (account & Hne & Hv & Hp). by apply (Hn account). }
  split; [done|]. unfold book_splits. by rewrite Hnil, Ho, Hno.
Qed.

(** C5. When the target file exists, [prepare_new_year_file] raises
    [FileExistsError] and the world is as it was: no file is written, no
    session is opened, nothing is logged.  So does a run of [main] whose
    configuration has the four keys. *)
Theorem prepare_new_year_file_target_exists previous_file new_file w :
  is_Some (w_files w !! new_file) ->
  prepare_new_year_file previous_file new_file w
  = (Raise (FileExistsError new_file), w)
  /\ forall opening_date (config : gmap string PyValue),
       Forall (fun key => is_Some (config !! key)) config_keys ->
       main previous_file new_file opening_date config w
       = (Raise (FileExistsError new_file), w).
Proof.
  intros [b Hb].
  assert (prepare_new_year_file previous_file new_file w
          = (Raise (FileExistsError new_file), w)) as E.
  { rewrite prepare_new_year_file_run. by rewrite Hb. }
  split; [done|]. intros opening_date config Hk.
  unfold config_keys in Hk.
  apply Forall_cons in Hk as [[v1 H1] Hk].
  apply Forall_cons in Hk as [[v2 H2] Hk].
  apply Forall_cons in Hk as [[v3 H3] Hk].
  apply Forall_cons in Hk as [[v4 H4] _].
  unfold main, getitem. rewrite H1, H2, H3, H4.
  cbv beta iota delta [mbind M_bind mret M_ret]. by rewrite E.
Qed.

(** C8. With the target file free and the previous file there,
    [prepare_new_year_file] does not raise, whatever splits without parent
    transaction the book has: it logs one warning for each such split of
    each account below the root, leaves these splits in the book, and
    still destroys every transaction that has a split in an account below
    the root. *)
Theorem prepare_new_year_file_orphan_splits previous_file new_file w
    book_prev :
  w_files w !! new_file = None ->
  w_files w !! previous_file = Some book_prev ->
  exists session w',
    prepare_new_year_file previous_file new_file w = (Ok session, w')
    /\ w_log w'
       = w_log w
         ++ (get_descendants book_prev (get_root_account book_prev)
               ≫= orphan_warnings book_prev)
    /\ book_orphan_splits (session_book session)
       = book_orphan_splits book_prev
    /\ forall t account,
         t ∈ book_transactions book_prev ->
         account ∈ get_descendants book_prev (get_root_account book_prev) ->
         posted_in t account ->
         t ∉ book_transactions (session_book session).
Proof.
  intros Hnew Hprev. rewrite prepare_new_year_file_run, Hnew, Hprev.
  eexists _, _. split; [reflexivity|]. simpl. split; [done|].
  destruct (purged_spec (get_descendants book_prev (get_root_account book_prev))
              book_prev) as (_ & Ho & _ & _ & _ & Hgone).
  split; [done|]. intros t account _ Ha Hp Ht. by apply (Hgone t account).
Qed.

(** ** The run *)

(** What [main] does, step by step. *)
Lemma main_run previous_file new_file opening_date
    (config : gmap string PyValue) w :
  main previous_file new_file opening_date config w
  = match config !! "equity_name" with
    | None => (Raise (KeyError "equity_name"), w)
    | Some equity_name =>
    match config !! "equity_opening_name" with
    | None => (Raise (KeyError "equity_opening_name"), w)
    | Some equity_opening_name =>
    match config !! "opening_transaction_text" with
    | None => (Raise (KeyError "opening_transaction_text"), w)
    | Some opening_transaction_text =>
    match config !! "currency" with
    | None => (Raise (KeyError "currency"), w)
    | Some currency =>
    match prepare_new_year_file previous_file new_file w with
    | (Raise e, w1) => (Raise e, w1)
    | (Ok session_new, w1) =>
    match Session_open previous_file SESSION_READ_ONLY w1 with
    | (Raise e, w2) => (Raise e, w2)
    | (Ok session_prev, w2) =>
    match main_synthesize opening_date equity_name equity_opening_name
            opening_transaction_text currency
            (get_account_balances (session_book session_prev))
            (session_book session_new) with
    | Raise e => (Raise e, w2)
    | Ok book_new =>
        (Ok tt,
         mkWorld (<[session_path session_new := book_new]> (w_files w2))
           (alter closed (session_id session_prev)
              (alter closed (session_id session_new) (w_sessions w2)))
           (w_log w2))
    end end end end end end end.
Proof.
  unfold main, getitem.
  destruct (config !! "equity_name"); [|done].
  destruct (config !! "equity_opening_name"); [|done].
  destruct (config !! "opening_transaction_text"); [|done].
  destruct (config !! "currency"); [|done].
  cbv beta iota delta [mbind M_bind mret M_ret].
  destruct (prepare_new_year_file previous_file new_file w)
    as [[session_new|e] w1]; [|done].
  destruct (Session_open previous_file SESSION_READ_ONLY w1)
    as [[session_prev|e] w2]; [|done].
  unfold lift. by destruct (main_synthesize _ _ _ _ _ _ _).
Qed.

(** C9. When one of the four keys is missing from the configuration, the
    run raises [KeyError] for a missing key and the world is as it was:
    no file was copied or saved and no session was opened. *)
Theorem main_missing_config_key previous_file new_file opening_date
    (config : gmap string PyValue) w key :
  key ∈ config_keys ->
  config !! key = None ->
  exists missing,
    missing ∈ config_keys
    /\ config !! missing = None
    /\ main previous_file new_file opening_date config w
       = (Raise (KeyError missing), w).
Proof.
  intros Hk Hnone. rewrite main_run. unfold config_keys in *.
  destruct (config !! "equity_name") eqn:H1;
    [|exists "equity_name"; split; [apply list_elem_of_In; simpl; tauto | done]].
  destruct (config !! "equity_opening_name") eqn:H2;
    [|exists "equity_opening_name"; split; [apply list_elem_of_In; simpl; tauto | done]].
  destruct (config !! "opening_transaction_text") eqn:H3;
    [|exists "opening_transaction_text"; split; [apply list_elem_of_In; simpl; tauto | done]].
  destruct (config !! "currency") eqn:H4;
    [|exists "currency"; split; [apply list_elem_of_In; simpl; tauto | done]].
  exfalso. repeat (apply elem_of_cons in Hk as [->|Hk]; [congruence|]).
  inversion Hk.
Qed.

Lemma alter_closed_two (l : list SessionEntry) e1 e2 :
  alter closed (length (l ++ [e1]))
    (alter closed (length l) ((l ++ [e1]) ++ [e2]))
  = l ++ [closed e1; closed e2].
Proof.
  rewrite <- (app_assoc l). simpl.
  rewrite (alter_app_r_alt closed l [e1; e2] (length l)) by lia.
  rewrite Nat.sub_diag. simpl.
  rewrite (alter_app_r_alt closed l _ (length (l ++ [e1])))
    by (rewrite length_app; lia).
  rewrite length_app. simpl.
  by replace (length l + 1 - length l)%nat with 1%nat by lia.
Qed.

(** C6 (amended). When a run returns, the two sessions it opened are
    closed: the session on the new file, opened for reading and writing,
    and the session on the previous file, opened read-only.  When a run
    raises, it has closed no session: every session that it opened before
    is left open. *)
Theorem main_sessions_at_exit previous_file new_file opening_date
    (config : gmap string PyValue) w r w' :
  main previous_file new_file opening_date config w = (r, w') ->
  match r with
  | Ok _ =>
      w_sessions w'
      = w_sessions w
        ++ [mkSessionEntry new_file SESSION_NORMAL_OPEN false;
            mkSessionEntry previous_file SESSION_READ_ONLY false]
  | Raise _ =>
      exists opened,
        w_sessions w' = w_sessions w ++ opened
        /\ Forall (fun e => se_open e = true) opened
  end.
Proof.
  rewrite main_run, prepare_new_year_file_run.
  assert (forall e, (Raise e, w) = (r, w') ->
            match r with
            | Ok _ =>
                w_sessions w'
                = w_sessions w
                  ++ [mkSessionEntry new_file SESSION_NORMAL_OPEN false;
                      mkSessionEntry previous_file SESSION_READ_ONLY false]
            | Raise _ =>
                exists opened,
                  w_sessions w' = w_sessions w ++ opened
                  /\ Forall (fun e => se_open e = true) opened
            end) as Hearly.
  { intros e [= <- <-]. exists []. by rewrite app_nil_r. }
  destruct (config !! "equity_name"); [|apply Hearly].
  destruct (config !! "equity_opening_name"); [|apply Hearly].
  destruct (config !! "opening_transaction_text"); [|apply Hearly].
  destruct (config !! "currency"); [|apply Hearly].
  destruct (w_files w !! new_file); [apply Hearly|].
  destruct (w_files w !! previous_file) as [book|]; [|apply Hearly].
  unfold Session_open. simpl.
  destruct (<[new_file:=book]> (w_files w) !! previous_file) as [book_prev|].
  - simpl. destruct (main_synthesize _ _ _ _ _ _ _).
    + intros [= <- <-]. simpl. apply alter_closed_two.
    + intros [= <- <-]. simpl. eexists [_; _].
      rewrite <- app_assoc. split; [done|]. by repeat constructor.
  - intros [= <- <-]. simpl. eexists [_]. split; [done|]. by repeat constructor.
Qed.

(** After a run that returned, the target file exists, so the same run
    once more raises [FileExistsError] and changes nothing. *)
Lemma main_twice previous_file new_file opening_date
    (config : gmap string PyValue) w w' :
  main previous_file new_file opening_date config w = (Ok tt, w') ->
  main previous_file new_file opening_date config w'
  = (Raise (FileExistsError new_file), w').
Proof.
  rewrite !main_run, !prepare_new_year_file_run.
  destruct (config !! "equity_name"); [|done].
  destruct (config !! "equity_opening_name"); [|done].
  destruct (config !! "opening_transaction_text"); [|done].
  destruct (config !! "currency"); [|done].
  destruct (w_files w !! new_file); [done|].
  destruct (w_files w !! previous_file) as [book|]; [|done].
  unfold Session_open. simpl.
  destruct (<[new_file:=book]> (w_files w) !! previous_file); [|done].
  simpl. destruct (main_synthesize _ _ _ _ _ _ _); [|done].
  intros [= <-]. simpl. by rewrite lookup_insert_eq.
Qed.

(** ** More on the balance extractor *)

Lemma recorded_test book acc :
  negb (GetPlaceholder book acc)
  && negb (bool_decide (GetType book acc ∈ ACCOUNT_TYPES_TO_EXCLUDE)) = true
  <-> GetPlaceholder book acc = false
      /\ GetType book acc ∉ ACCOUNT_TYPES_TO_EXCLUDE.
Proof.
  rewrite andb_true_iff, !negb_true_iff, bool_decide_eq_false. tauto.
Qed.

(** The value of the snapshot at a name, read off the walk. *)
Lemma get_account_balances_get (book : Book) (name : string) :
  dict_get (get_account_balances book) name
  = GetBalance book
      <$> last (filter (fun acc => get_full_name book acc = name)
                  (recorded_accounts book)).
Proof.
  rewrite get_account_balances_foldl, dict_get_foldl_set.
  unfold recorded_accounts. rewrite list_filter_filter.
  rewrite (list_filter_iff _
             (fun acc => get_full_name book acc = name
                         /\ GetPlaceholder book acc = false
                         /\ GetType book acc ∉ ACCOUNT_TYPES_TO_EXCLUDE)).
  2:{ intros acc. rewrite recorded_test. tauto. }
  by destruct (last _).
Qed.

(** X1. The balance recorded under a name is the balance of the last
    account of the walk that is recorded and has this full name: when two
    recorded accounts have the same full name, the later one overwrites
    the earlier one; a name of no recorded account is not a key. *)
Theorem get_account_balances_last_wins (book : Book) (name : string) :
  dict_get (get_account_balances book) name
  = GetBalance book
      <$> last (filter (fun acc => get_full_name book acc = name)
                  (recorded_accounts book)).
Proof.
  rewrite get_account_balances_foldl, dict_get_foldl_set.
  unfold recorded_accounts. rewrite list_filter_filter.
  rewrite (list_filter_iff _
             (fun acc => get_full_name book acc = name
                         /\ GetPlaceholder book acc = false
                         /\ GetType book acc ∉ ACCOUNT_TYPES_TO_EXCLUDE)).
  2:{ intros acc. rewrite recorded_test. tauto. }
  by destruct (last _).
Qed.




(** ** More on the purge *)

Lemma purged_keeps accounts : forall book t,
  t ∈ book_transactions book ->
  (forall t', t' ∈ book_transactions book -> trans_guid t' = trans_guid t ->
     forall account, account ∈ accounts -> ~ posted_in t' account) ->
  t ∈ book_transactions (purged book accounts).
Proof.
  induction accounts as [|a accounts IH]; intros book t Ht Hfree; [done|].
  simpl. fold (purged (purged_account book a) accounts). apply IH.
  - apply purged_account_transactions. split; [done|].
    intros (t' & Ht' & Hg & Hp). apply (Hfree t' Ht' Hg a); [left | done].
  - intros t' Ht' Hg account Hin.
    apply purged_account_transactions in Ht' as [Ht' _].
    apply (Hfree t' Ht' Hg). by right.
Qed.

(** X3. The purge reaches a transaction only through the split list of an
    account below the root: a transaction of the previous book is still in
    the book of the returned session when neither it nor a transaction
    with its GUID has a split in an account below the root, as is the case
    for a transaction without splits. *)
Theorem prepare_new_year_file_keeps_unposted previous_file new_file w session
    w' book_prev t :
  prepare_new_year_file previous_file new_file w = (Ok session, w') ->
  w_files w !! previous_file = Some book_prev ->
  t ∈ book_transactions book_prev ->
  (forall t', t' ∈ book_transactions book_prev ->
     trans_guid t' = trans_guid t ->
     forall account,
       account ∈ get_descendants book_prev (get_root_account book_prev) ->
       ~ posted_in t' account) ->
  t ∈ book_transactions (session_book session).
Proof.
  rewrite prepare_new_year_file_run. intros H Hprev Ht Hfree.
  rewrite Hprev in H. destruct (w_files w !! new_file); [done|].
  injection H as <- <-. simpl. by apply purged_keeps.
Qed.

Lemma purged_nothing_posted accounts : forall book,
  (forall t account, t ∈ book_transactions book -> account ∈ accounts ->
     ~ posted_in t account) ->
  purged book accounts = book.
Proof.
  induction accounts as [|a accounts IH]; intros book Hfree; [done|].
  simpl. fold (purged (purged_account book a) accounts).
  assert (purged_account book a = book) as ->.
  { unfold purged_account.
    assert (account_parents book a = []) as ->; [|done].
    apply elem_of_nil_inv. intros g Hg.
    apply elem_of_account_parents in Hg as (t & Ht & _ & Hp).
    apply (Hfree t a Ht); [left | done]. }
  apply IH. intros t account Ht Hin. apply Hfree; [done | by right].
Qed.

(** X4. The purge is idempotent: the two loops run once more on the book
    that they left destroy nothing, and they log the same warnings once
    more, since the splits without parent transaction are still there. *)
Theorem delete_loops_idempotent accounts book w book1 w1 :
  for_each delete_splits_of accounts book w = (Ok book1, w1) ->
  for_each delete_splits_of accounts book1 w1
  = (Ok book1, add_log w1 (accounts ≫= orphan_warnings book)).
Proof.
  rewrite !for_each_delete_run. intros [= <- <-].
  destruct (purged_spec accounts book) as (Hr & Ho & _ & _ & _ & Hgone).
  rewrite purged_nothing_posted by done.
  assert (forall l : list AccountRef,
            l ≫= orphan_warnings (purged book accounts)
            = l ≫= orphan_warnings book) as Hw.
  { induction l as [|a l IH]; simpl; [done|].
    f_equal; [by apply orphan_warnings_ext | done]. }
  by rewrite Hw.
Qed.

(** ** More on the files of a run *)

(** X5. With the target file free and the previous file missing,
    [prepare_new_year_file] raises [FileNotFoundError] at the copy and the
    world is as it was: no target file is left behind and no session is
    opened.  So does a run of [main] whose configuration has the four
    keys. *)
Theorem prepare_new_year_file_previous_missing previous_file new_file w :
  w_files w !! new_file = None ->
  w_files w !! previous_file = None ->
  prepare_new_year_file previous_file new_file w
  = (Raise (FileNotFoundError previous_file), w)
  /\ forall opening_date (config : gmap string PyValue),
       Forall (fun key => is_Some (config !! key)) config_keys ->
       main previous_file new_file opening_date config w
       = (Raise (FileNotFoundError previous_file), w).
Proof.
  intros Hnew Hprev.
  assert (prepare_new_year_file previous_file new_file w
          = (Raise (FileNotFoundError previous_file), w)) as E.
  { rewrite prepare_new_year_file_run. by rewrite Hnew, Hprev. }
  split; [done|]. intros opening_date config Hk.
  unfold config_keys in Hk.
  apply Forall_cons in Hk as [[v1 H1] Hk].
  apply Forall_cons in Hk as [[v2 H2] Hk].
  apply Forall_cons in Hk as [[v3 H3] Hk].
  apply Forall_cons in Hk as [[v4 H4] _].
  rewrite main_run, H1, H2, H3, H4. by rewrite E.
Qed.

(** X6. Whatever the outcome of a run, [main] writes no file but the new
    file: every other file is as it was, and so is the previous file. *)
Theorem main_writes_only_new_file previous_file new_file opening_date
    (config : gmap string PyValue) w r w' :
  main previous_file new_file opening_date config w = (r, w') ->
  (forall path, path <> new_file -> w_files w' !! path = w_files w !! path)
  /\ w_files w' !! previous_file = w_files w !! previous_file.
Proof.
  rewrite main_run, prepare_new_year_file_run.
  assert (forall e, (Raise e, w) = (r, w') ->
            (forall path, path <> new_file ->
               w_files w' !! path = w_files w !! path)
            /\ w_files w' !! previous_file = w_files w !! previous_file)
    as Hearly.
  { by intros e [= <- <-]. }
  destruct (config !! "equity_name"); [|apply Hearly].
  destruct (config !! "equity_opening_name"); [|apply Hearly].
  destruct (config !! "opening_transaction_text"); [|apply Hearly].
  destruct (config !! "currency"); [|apply Hearly].
  destruct (w_files w !! new_file) eqn:Hnew; [apply Hearly|].
  destruct (w_files w !! previous_file) as [book|] eqn:Hprev; [|apply Hearly].
  assert (previous_file <> new_file) as Hne by congruence.
  unfold Session_open. simpl.
  destruct (<[new_file:=book]> (w_files w) !! previous_file) as [book_prev|].
  - simpl. destruct (main_synthesize _ _ _ _ _ _ _);
      intros [= <- <-]; simpl; (split; [intros path Hp|]);
      rewrite ?lookup_insert_ne by done; done.
  - intros [= <- <-]. simpl. (split; [intros path Hp|]);
      rewrite ?lookup_insert_ne by done; done.
Qed.

(** ** More on the opening transaction synthesizer *)



Lemma opens_header final opening_date text currency price_db equity_account
    items created :
  Forall2 (opens final opening_date text currency price_db equity_account)
    items created ->
  Forall
    (fun t =>
       trans_description t = text
       /\ trans_date t
          = Some (dt_day opening_date, dt_month opening_date,
                  dt_year opening_date)
       /\ trans_currency t = currency)
    created.
Proof.
  induction 1 as [|item t items created (account & _ & Et) _ IH];
    constructor; [|done].
  by rewrite Et.
Qed.

(** X9. Every opening transaction has the text of the configuration as
    description, the day, month and year of the opening date as date, and
    as currency the commodity that the commodity table of the new book
    has for the currency code (none when it has none). *)
Theorem main_synthesize_transaction_header
    opening_date equity_name equity_opening_name text currency
    account_balances book :
  exists book' created,
    main_synthesize opening_date (PyStr equity_name)
      (PyStr equity_opening_name) (PyStr text) (PyStr currency)
      account_balances book = Ok book'
    /\ book_transactions book' = book_transactions book ++ created
    /\ Forall
         (fun t =>
            trans_description t = text
            /\ trans_date t
               = Some (dt_day opening_date, dt_month opening_date,
                       dt_year opening_date)
            /\ trans_currency t = table_lookup book "CURRENCY" currency)
         created.
Proof.
  destruct (main_synthesize_spec opening_date equity_name equity_opening_name
              text currency account_balances book)
    as (book1 & eq & book' & created & _ & E & Ht & _ & _ & _ & _ & _ & _
        & Hall).
  exists book', created. split; [done|]. split; [done|].
  by eapply opens_header.
Qed.

(** X10. The synthesizer removes and changes nothing that was in the book:
    every account is at its position with its name, type, placeholder flag
    and commodity, the transactions that were there come first and are
    unchanged, and the splits without parent transaction, the commodity
    table and the price database are as they were. *)
Theorem main_synthesize_frame
    opening_date equity_name equity_opening_name text currency
    account_balances book :
  exists book' created,
    main_synthesize opening_date (PyStr equity_name)
      (PyStr equity_opening_name) (PyStr text) (PyStr currency)
      account_balances book = Ok book'
    /\ tree_extends (book_root book) (book_root book')
    /\ book_transactions book' = book_transactions book ++ created
    /\ book_orphan_splits book' = book_orphan_splits book
    /\ book_table book' = book_table book
    /\ book_price_db book' = book_price_db book.
Proof.
  destruct (main_synthesize_spec opening_date equity_name equity_opening_name
              text currency account_balances book)
    as (book1 & eq & book' & created & _ & E & Ht & He1 & He & _ & Ho & Htb
        & Hp & _).
  exists book', created. split; [done|].
  split; [by eapply tree_extends_trans | done].
Qed.

Lemma lookup_by_full_name_root book1 book2 name :
  book_root book1 = book_root book2 ->
  lookup_by_full_name book1 name = lookup_by_full_name book2 name.
Proof. unfold lookup_by_full_name. by intros ->. Qed.

Lemma opening_transactions_root_unchanged opening_date text currency price_db
    equity_account book account_balances :
  Forall (fun item => item.2 ≠ 0 ->
                      is_Some (lookup_by_full_name book item.1))
    account_balances ->
  forall book0,
    book_root book0 = book_root book ->
    exists book',
      for_each_result
        (main_opening_transaction opening_date (PyStr text) currency price_db
           equity_account) account_balances book0 = Ok book'
      /\ book_root book' = book_root book.
Proof.
  induction 1 as [|[name balance] items Hfound _ IH]; intros book0 Hr.
  - by exists book0.
  - rewrite for_each_result_cons, main_opening_transaction_run.
    destruct (decide (balance ≠ 0)) as [Hb|Hb].
    + rewrite bool_decide_eq_true_2 by done.
      destruct (Hfound Hb) as [found Hl]. simpl in Hl.
      rewrite <- (lookup_by_full_name_root book0 book) in Hl by done.
      unfold opening_account. rewrite Hl. by apply IH.
    + rewrite bool_decide_eq_false_2 by done. by apply IH.
Qed.

(** X11. When the book has an account under the equity name, under the
    full name of the opening balances account and under the name of every
    item with a balance other than zero, the synthesizer leaves the
    account tree exactly as it was: it creates an account only after a
    lookup that found nothing. *)
Theorem main_synthesize_tree_unchanged
    opening_date equity_name equity_opening_name text currency
    account_balances book :
  is_Some (lookup_by_full_name book equity_name) ->
  is_Some (lookup_by_full_name book
             (equity_name +:+ "." +:+ equity_opening_name)) ->
  Forall (fun item => item.2 ≠ 0 ->
                      is_Some (lookup_by_full_name book item.1))
    account_balances ->
  exists book',
    main_synthesize opening_date (PyStr equity_name)
      (PyStr equity_opening_name) (PyStr text) (PyStr currency)
      account_balances book = Ok book'
    /\ book_root book' = book_root book.
Proof.
  intros [p Hp] [e He] Hall.
  rewrite main_synthesize_run, main_equity_accounts_run.
  unfold equity_placeholder. rewrite Hp, He.
  by apply opening_transactions_root_unchanged.
Qed.

(** X12. For an item with a balance other than zero whose name is not
    found in the book, the body of the loop appends a bare account as the
    last child of the root: its name is the whole full name, its type is
    none, it is no placeholder and has no commodity.  The asset split of
    the opening transaction is a split of this account, and the equity
    value is computed with no asset commodity. *)
Theorem main_opening_transaction_creates_account opening_date text currency
    price_db equity_account book account_name balance :
  balance ≠ 0 ->
  lookup_by_full_name book account_name = None ->
  exists book' t,
    main_opening_transaction opening_date (PyStr text) currency price_db
      equity_account book (account_name, balance) = Ok book'
    /\ acc_children (book_root book')
       = acc_children (book_root book)
         ++ [mkAccount account_name ACCT_TYPE_NONE false None []]
    /\ book_transactions book' = book_transactions book ++ [t]
    /\ trans_splits t
       = [mkSplit (Some [length (acc_children (book_root book))]) balance
            (equity_value_of price_db opening_date balance None
               (GetCommodity book' equity_account));
          mkSplit (Some equity_account)
            (- equity_value_of price_db opening_date balance None
                 (GetCommodity book' equity_account))
            (- equity_value_of price_db opening_date balance None
                 (GetCommodity book' equity_account))].
Proof.
  intros Hb Hl. rewrite main_opening_transaction_run.
  rewrite bool_decide_eq_true_2 by done.
  unfold opening_account. rewrite Hl.
  destruct (book_append_child book (get_root_account book)
              (SetName Account_new account_name)) as [book1 account] eqn:H1.
  assert (account = [length (acc_children (book_root book))]) as ->.
  { by injection H1 as _ <-. }
  assert (acc_children (book_root book1)
          = acc_children (book_root book)
            ++ [mkAccount account_name ACCT_TYPE_NONE false None []]) as Hc.
  { pose proof (f_equal fst H1) as Hf. simpl in Hf. by rewrite <- Hf. }
  apply book_append_child_spec in H1 as (_ & Hn & Ht & _); [|by eexists].
  assert (GetCommodity book1 [length (acc_children (book_root book))] = None)
    as Ha by (unfold GetCommodity; by rewrite Hn).
  assert (forall t,
            GetCommodity (CommitEdit book1 t) equity_account
            = GetCommodity book1 equity_account) as Hq by done.
  eexists _, _. split; [reflexivity|].
  split; [done|]. split; [simpl; by rewrite Ht|].
  by rewrite Hq, Ha.
Qed.

Lemma opening_transactions_number_run opening_date z currency price_db
    equity_account account_balances book :
  for_each_result
    (main_opening_transaction opening_date (PyInt z) currency price_db
       equity_account) account_balances book
  = match filter (fun item => item.2 ≠ 0) account_balances with
    | [] => Ok book
    | _ :: _ => Raise TypeError
    end.
Proof.
  induction account_balances as [|[name balance] items IH]; [done|].
  rewrite for_each_result_cons, filter_cons. cbn [snd].
  unfold main_opening_transaction at 1.
  destruct (decide (balance ≠ 0)) as [Hb|Hb].
  - rewrite bool_decide_eq_true_2 by done.
    by destruct (lookup_by_full_name book name).
  - rewrite bool_decide_eq_false_2 by done. apply IH.
Qed.

(** X13. When the text of the opening transactions is a number, the loop
    over the balances raises [TypeError] if an item has a balance other
    than zero, and returns the book as it is if none has: the text is
    used for such an item only. *)
Theorem opening_transactions_number_text opening_date z currency price_db
    equity_account account_balances book :
  for_each_result
    (main_opening_transaction opening_date (PyInt z) currency price_db
       equity_account) account_balances book
  = match filter (fun item => item.2 ≠ 0) account_balances with
    | [] => Ok book
    | _ :: _ => Raise TypeError
    end.
Proof.
  induction account_balances as [|[name balance] items IH]; [done|].
  rewrite for_each_result_cons, filter_cons. cbn [snd].
  unfold main_opening_transaction at 1.
  destruct (decide (balance ≠ 0)) as [Hb|Hb].
  - rewrite bool_decide_eq_true_2 by done.
    by destruct (lookup_by_full_name book name).
  - rewrite bool_decide_eq_false_2 by done. apply IH.
Qed.

(** ** The run, end to end *)

Lemma main_synthesize_run_text opening_date equity_name equity_opening_name
    (text : PyValue) currency account_balances book :
  main_synthesize opening_date (PyStr equity_name)
    (PyStr equity_opening_name) text (PyStr currency) account_balances book
  = match main_equity_accounts (PyStr equity_name)
            (PyStr equity_opening_name)
            (table_lookup book "CURRENCY" currency) book with
    | Ok (book1, equity_account) =>
        for_each_result
          (main_opening_transaction opening_date text
             (table_lookup book "CURRENCY" currency) (book_price_db book)
             equity_account) account_balances book1
    | Raise e => Raise e
    end.
Proof.
  unfold main_synthesize. simpl. unfold mbind, result_bind.
  by destruct (main_equity_accounts _ _ _ _) as [[? ?]|].
Qed.

Lemma opens_splits final opening_date text currency price_db equity_account
    items created :
  Forall2 (opens final opening_date text currency price_db equity_account)
    items created ->
  Forall2
    (fun item t =>
       exists account equity_value,
         trans_splits t
         = [mkSplit (Some account) item.2 equity_value;
            mkSplit (Some equity_account) (- equity_value)
              (- equity_value)])
    items created.
Proof.
  intros H. eapply Forall2_impl; [exact H|].
  intros item t (account & _ & Et). rewrite Et. simpl. by eexists _, _.
Qed.

(** Whatever the values of the configuration are, a synthesizer that
    returns has kept what was in the book and has added one transaction
    of two splits for each item with a balance other than zero. *)
Lemma main_synthesize_returns opening_date equity_name equity_opening_name
    text currency account_balances book book' :
  main_synthesize opening_date equity_name equity_opening_name text currency
    account_balances book = Ok book' ->
  exists equity_account created,
    tree_extends (book_root book) (book_root book')
    /\ book_orphan_splits book' = book_orphan_splits book
    /\ book_transactions book' = book_transactions book ++ created
    /\ Forall2
         (fun item t =>
            exists account equity_value,
              trans_splits t
              = [mkSplit (Some account) item.2 equity_value;
                 mkSplit (Some equity_account) (- equity_value)
                   (- equity_value)])
         (nonzero_items account_balances) created.
Proof.
  destruct currency as [currency|]; [|done].
  destruct equity_name as [equity_name|]; [|done].
  destruct equity_opening_name as [equity_opening_name|].
  2:{ unfold main_synthesize, main_equity_accounts. simpl.
      by destruct (lookup_by_full_name book equity_name). }
  destruct text as [text|z].
  - destruct (main_synthesize_spec opening_date equity_name
                equity_opening_name text currency account_balances book)
      as (book1 & eq & book2 & created & _ & E & Ht & He1 & He & _ & Ho & _
          & _ & Hall).
    rewrite E. intros [= <-]. exists eq, created.
    split; [by eapply tree_extends_trans|]. do 2 (split; [done|]).
    by eapply opens_splits.
  - rewrite main_synthesize_run_text.
    destruct (main_equity_accounts_spec equity_name equity_opening_name
                (table_lookup book "CURRENCY" currency) book)
      as (book1 & eq & E1 & He1 & _ & Ht1 & Ho1 & _).
    rewrite E1, opening_transactions_number_run. unfold nonzero_items.
    destruct (filter _ account_balances); [|done].
    intros [= <-]. exists eq, []. rewrite app_nil_r.
    do 3 (split; [done|]). constructor.
Qed.

(** X14. After a run that returned, the new file holds a book made from
    the previous book: the accounts of the previous book are at their
    positions with their names, types, placeholder flags and commodities;
    the splits without parent transaction are those of the previous book;
    the transactions are, first, transactions of the previous book that
    have no split in an account below the root, and then one opening
    transaction of two splits for each item with a balance other than
    zero of the balances extracted from the previous book, in their
    order. *)
Theorem main_new_file previous_file new_file opening_date
    (config : gmap string PyValue) w w' book_prev :
  main previous_file new_file opening_date config w = (Ok tt, w') ->
  w_files w !! previous_file = Some book_prev ->
  exists book_new equity_account kept created,
    w_files w' !! new_file = Some book_new
    /\ tree_extends (book_root book_prev) (book_root book_new)
    /\ book_orphan_splits book_new = book_orphan_splits book_prev
    /\ book_transactions book_new = kept ++ created
    /\ (forall t, t ∈ kept ->
          t ∈ book_transactions book_prev
          /\ forall account,
               account ∈ get_descendants book_prev
                           (get_root_account book_prev) ->
               ~ posted_in t account)
    /\ Forall2
         (fun item t =>
            exists account equity_value,
              trans_splits t
              = [mkSplit (Some account) item.2 equity_value;
                 mkSplit (Some equity_account) (- equity_value)
                   (- equity_value)])
         (filter (fun item => item.2 ≠ 0) (get_account_balances book_prev))
         created.
Proof.
  rewrite main_run, prepare_new_year_file_run. intros H Hprev.
  destruct (config !! "equity_name"); [|done].
  destruct (config !! "equity_opening_name"); [|done].
  destruct (config !! "opening_transaction_text"); [|done].
  destruct (config !! "currency"); [|done].
  destruct (w_files w !! new_file) eqn:Hnew; [done|].
  rewrite Hprev in H. unfold Session_open in H. simpl in H.
  rewrite lookup_insert_ne in H by congruence. rewrite Hprev in H.
  simpl in H.
  destruct (main_synthesize _ _ _ _ _ _ _) as [book_new|] eqn:Es; [|done].
  injection H as <-. simpl. rewrite lookup_insert_eq.
  apply main_synthesize_returns in Es
    as (eq & created & He & Ho & Ht & Hall).
  destruct (purged_spec (get_descendants book_prev (get_root_account book_prev))
              book_prev) as (Hr & Hor & _ & _ & Hsub & Hgone).
  rewrite Hr in He. rewrite Hor in Ho.
  exists book_new, eq,
    (book_transactions
       (purged book_prev
          (get_descendants book_prev (get_root_account book_prev)))),
    created.
  split; [done|]. do 3 (split; [done|]).
  split; [|done]. intros t Hin. split; [by apply Hsub|].
  intros account Ha. by apply (Hgone t account).
Qed.

(** ** The balances of the new book *)

Lemma total_app l1 l2 : total (l1 ++ l2) = total l1 + total l2.
Proof.
  unfold total. induction l1 as [|x l1 IH]; simpl; [ring|].
  rewrite IH. ring.
Qed.

Lemma GetBalance_parts book account :
  GetBalance book account
  = posted_amount (book_transactions book) account
    + total (split_amount <$> orphans_of book account).
Proof.
  unfold GetBalance. rewrite GetSplitList_parts, fmap_app.
  etrans; [apply (total_app _ _)|]. unfold posted_amount. f_equal.
  by rewrite <- list_fmap_compose.
Qed.

Lemma posted_amount_app l1 l2 account :
  posted_amount (l1 ++ l2) account
  = posted_amount l1 account + posted_amount l2 account.
Proof.
  unfold posted_amount. by rewrite bind_app, filter_app, fmap_app, total_app.
Qed.

Lemma posted_amount_none transactions account :
  (forall t, t ∈ transactions -> ~ posted_in t account) ->
  posted_amount transactions account = 0.
Proof.
  intros Hnone. unfold posted_amount.
  assert (filter (fun s => split_account (split_data s) = Some account)
            (transactions ≫= splits_of) = []) as ->; [|done].
  apply elem_of_nil_inv. intros s Hs.
  apply list_elem_of_filter in Hs as [Ha Hs].
  apply list_elem_of_bind in Hs as (t & Hs & Ht).
  apply list_elem_of_fmap in Hs as (s0 & -> & Hs0).
  apply (Hnone t Ht). by exists s0.
Qed.

Lemma posted_amount_opening guid text opening_date currency found
    equity_account balance equity_value account :
  account <> equity_account ->
  posted_amount
    [opening_transaction guid text opening_date currency found equity_account
       balance equity_value] account
  = if decide (found = account) then balance else 0.
Proof.
  intros Hne. unfold posted_amount. simpl.
  rewrite !filter_cons, filter_nil. simpl.
  rewrite (decide_False (P := Some equity_account = Some account))
    by congruence.
  destruct (decide (found = account)) as [->|Hf].
  - rewrite decide_True by done. unfold total. simpl. ring.
  - rewrite decide_False by congruence. done.
Qed.

Lemma carried_cons book name balance items account :
  carried book ((name, balance) :: items) account
  = (if decide (lookup_by_full_name book name = Some account)
     then balance else 0)
    + carried book items account.
Proof.
  unfold carried. rewrite filter_cons. simpl.
  destruct (decide (lookup_by_full_name book name = Some account)).
  - reflexivity.
  - unfold total. ring.
Qed.

Lemma carried_root book1 book2 items account :
  book_root book1 = book_root book2 ->
  carried book1 items account = carried book2 items account.
Proof.
  intros Hr. unfold carried. do 2 f_equal. apply list_filter_iff.
  intros item. by rewrite (lookup_by_full_name_root book1 book2).
Qed.

(** The loop over the balances, when every name with a balance other
    than zero is found: the transactions add to an account that is not
    the equity account the balances of the items looked up to it. *)
Lemma opening_transactions_balances opening_date text currency price_db
    equity_account book account_balances account :
  account <> equity_account ->
  Forall (fun item => item.2 ≠ 0 ->
                      is_Some (lookup_by_full_name book item.1))
    account_balances ->
  forall book0,
    book_root book0 = book_root book ->
    exists book',
      for_each_result
        (main_opening_transaction opening_date (PyStr text) currency price_db
           equity_account) account_balances book0 = Ok book'
      /\ book_root book' = book_root book
      /\ book_orphan_splits book' = book_orphan_splits book0
      /\ posted_amount (book_transactions book') account
         = posted_amount (book_transactions book0) account
           + carried book account_balances account.
Proof.
  intros Hne.
  induction 1 as [|[name balance] items Hfound _ IH]; intros book0 Hr.
  - exists book0. do 3 (split; [done|]). unfold carried, total. simpl. ring.
  - rewrite for_each_result_cons, main_opening_transaction_run, carried_cons.
    destruct (decide (balance ≠ 0)) as [Hb|Hb].
    + rewrite bool_decide_eq_true_2 by done.
      destruct (Hfound Hb) as [found Hl]. simpl in Hl.
      assert (lookup_by_full_name book0 name = Some found) as Hl0
        by (by rewrite (lookup_by_full_name_root book0 book)).
      unfold opening_account. rewrite Hl0.
      set (t := opening_transaction _ _ _ _ _ _ _ _).
      destruct (IH (CommitEdit book0 t) Hr) as (book' & E & Hr' & Ho & Hp).
      exists book'. do 3 (split; [done|]). rewrite Hp. simpl.
      rewrite posted_amount_app. unfold t.
      rewrite posted_amount_opening by done. rewrite Hl.
      destruct (decide (found = account)) as [->|Hf].
      * rewrite decide_True by done. ring.
      * rewrite decide_False by congruence. ring.
    + rewrite bool_decide_eq_false_2 by done.
      destruct (IH book0 Hr) as (book' & E & Hr' & Ho & Hp).
      exists book'. do 3 (split; [done|]). rewrite Hp.
      assert (balance = 0) as -> by (by destruct (decide (balance = 0))).
      destruct (decide _); ring.
Qed.

(** X15. When every item with a balance other than zero is found under
    its name in the book that has the equity accounts, the synthesizer
    adds to the balance of every account other than the equity account
    the sum of the balances of the items whose name is looked up to this
    account. *)
Theorem main_synthesize_adds_balances
    opening_date equity_name equity_opening_name text currency
    account_balances book book1 equity_account account :
  main_equity_accounts (PyStr equity_name) (PyStr equity_opening_name)
    (table_lookup book "CURRENCY" currency) book
  = Ok (book1, equity_account) ->
  Forall (fun item => item.2 ≠ 0 ->
                      is_Some (lookup_by_full_name book1 item.1))
    account_balances ->
  account <> equity_account ->
  exists book',
    main_synthesize opening_date (PyStr equity_name)
      (PyStr equity_opening_name) (PyStr text) (PyStr currency)
      account_balances book = Ok book'
    /\ GetBalance book' account
       = GetBalance book account + carried book1 account_balances account.
Proof.
  intros E1 Hfound Hne. rewrite main_synthesize_run, E1.
  destruct (main_equity_accounts_spec equity_name equity_opening_name
              (table_lookup book "CURRENCY" currency) book)
    as (b & e & E1' & _ & _ & Ht1 & Ho1 & _).
  rewrite E1 in E1'. injection E1' as <- <-.
  destruct (opening_transactions_balances opening_date text
              (table_lookup book "CURRENCY" currency) (book_price_db book)
              equity_account book1 account_balances account Hne Hfound
              book1 eq_refl) as (book' & E & _ & Ho & Hp).
  exists book'. split; [done|].
  rewrite !GetBalance_parts, Hp, Ht1. unfold orphans_of.
  rewrite Ho, Ho1. ring.
Qed.

Lemma elem_of_dict_get {V : Type} (d : list (string * V)) k v :
  (k, v) ∈ d -> is_Some (dict_get d k).
Proof.
  induction d as [|[k0 v0] d IH]; [by intros H; inversion H|].
  rewrite elem_of_cons. simpl. intros [[= <- <-]|H].
  - by rewrite decide_True.
  - destruct (decide (k0 = k)); [done | by apply IH].
Qed.

Lemma elem_of_dict_set_keys {V : Type} (d : list (string * V)) k v x :
  x ∈ (dict_set d k v).*1 <-> x = k \/ x ∈ d.*1.
Proof.
  induction d as [|[k0 v0] d IH]; simpl.
  - rewrite list_elem_of_singleton, elem_of_nil. tauto.
  - destruct (decide (k0 = k)) as [->|Hne]; simpl.
    + rewrite !elem_of_cons. tauto.
    + rewrite !elem_of_cons, IH. tauto.
Qed.

Lemma dict_set_NoDup {V : Type} (d : list (string * V)) k v :
  NoDup d.*1 -> NoDup (dict_set d k v).*1.
Proof.
  induction d as [|[k0 v0] d IH]; simpl.
  - intros _. apply NoDup_singleton.
  - rewrite NoDup_cons. intros [Hk0 Hd].
    destruct (decide (k0 = k)) as [->|Hne]; simpl.
    + by apply NoDup_cons.
    + apply NoDup_cons. split; [|by apply IH].
      rewrite elem_of_dict_set_keys. intros [?|?]; done.
Qed.

(** A snapshot is a dictionary: no name is a key twice. *)
Lemma get_account_balances_NoDup book :
  NoDup (get_account_balances book).*1.
Proof.
  rewrite get_account_balances_foldl.
  assert (NoDup (@nil (string * Qc)).*1) as H by constructor.
  revert H. generalize (@nil (string * Qc)).
  induction (walk book (get_root_account book)) as [|x l IH]; intros d Hd;
    simpl; [done|].
  apply IH. destruct (_ && _); [by apply dict_set_NoDup | done].
Qed.

Lemma total_filter_key (P : string * Qc -> Prop)
    `{!forall item, Decision (P item)} (d : list (string * Qc)) k :
  NoDup d.*1 ->
  (forall item, item ∈ d -> P item <-> item.1 = k) ->
  total (snd <$> filter P d) = default 0 (dict_get d k).
Proof.
  induction d as [|[k0 v0] d IH]; [done|].
  simpl. rewrite NoDup_cons. intros [Hk0 Hd] HP. rewrite filter_cons.
  destruct (decide (k0 = k)) as [->|Hne].
  - rewrite decide_True by (apply HP; [left | done]). simpl.
    assert (filter P d = []) as ->.
    { apply elem_of_nil_inv. intros [k1 v1] H1.
      apply list_elem_of_filter in H1 as [H1 Hin].
      apply HP in H1; [|by right]. simpl in H1. subst k1.
      apply Hk0. apply list_elem_of_fmap. by exists (k, v1). }
    unfold total. simpl. ring.
  - rewrite decide_False.
    + apply IH; [done|]. intros item Hin. apply HP. by right.
    + intros HPk. apply HP in HPk; [done | left].
Qed.

(** The items of a snapshot that are looked up to an account, when the
    lookup of a full name gives back the account: the item of the account
    itself if it is recorded, and no item if it is not. *)
Lemma carried_snapshot book account :
  Forall (fun a => lookup_by_full_name book (get_full_name book a) = Some a)
    (recorded_accounts book) ->
  carried book (get_account_balances book) account
  = if decide (account ∈ recorded_accounts book) then GetBalance book account
    else 0.
Proof.
  intros Hround. rewrite Forall_forall in Hround.
  assert (forall item, item ∈ get_account_balances book ->
            exists a, a ∈ recorded_accounts book
                      /\ get_full_name book a = item.1) as Hitem.
  { intros [k v] Hin. apply elem_of_dict_get in Hin as [v' Hv].
    rewrite get_account_balances_get in Hv.
    destruct (last _) as [a|] eqn:Hl; [|done].
    apply last_Some_elem_of, list_elem_of_filter in Hl as [Hn Ha].
    by exists a. }
  destruct (decide (account ∈ recorded_accounts book)) as [Hrec|Hrec].
  - unfold carried.
    rewrite (total_filter_key _ _ (get_full_name book account)).
    + rewrite get_account_balances_get.
      destruct (last _) as [a|] eqn:Hl.
      * apply last_Some_elem_of, list_elem_of_filter in Hl as [Hn Ha].
        apply Hround in Ha. rewrite Hn, (Hround _ Hrec) in Ha.
        by injection Ha as <-.
      * apply last_None in Hl.
        assert (account ∈ @nil AccountRef) as Hin; [|by inversion Hin].
        rewrite <- Hl. by apply list_elem_of_filter.
    + apply get_account_balances_NoDup.
    + intros item Hin. destruct (Hitem item Hin) as (a & Ha & Hn). split.
      * intros Hl. rewrite <- Hn, (Hround _ Ha) in Hl. by injection Hl as <-.
      * intros ->. by apply Hround.
  - unfold carried.
    assert (filter
              (fun item => lookup_by_full_name book item.1 = Some account)
              (get_account_balances book) = []) as ->; [|done].
    apply elem_of_nil_inv. intros item Hin.
    apply list_elem_of_filter in Hin as [Hl Hin].
    destruct (Hitem item Hin) as (a & Ha & Hn).
    rewrite <- Hn, (Hround _ Ha) in Hl. injection Hl as <-. done.
Qed.

Lemma carried_all_zero book items account :
  filter (fun item : string * Qc => item.2 ≠ 0) items = [] ->
  carried book items account = 0.
Proof.
  induction items as [|[name balance] items IH]; [done|].
  rewrite filter_cons, carried_cons. simpl.
  destruct (decide (balance ≠ 0)) as [Hb|Hb]; [done|]. intros H.
  rewrite (IH H).
  assert (balance = 0) as -> by (by destruct (decide (balance = 0))).
  destruct (decide _); ring.
Qed.

(** The loop over the balances, whatever the text is: if it returns, with
    every name with a balance other than zero found, it has added to an
    account that is not the equity account the balances of the items
    looked up to it. *)
Lemma opening_transactions_returned opening_date (text : PyValue) currency
    price_db equity_account book account_balances account book' :
  for_each_result
    (main_opening_transaction opening_date text currency price_db
       equity_account) account_balances book = Ok book' ->
  account <> equity_account ->
  Forall (fun item => item.2 ≠ 0 ->
                      is_Some (lookup_by_full_name book item.1))
    account_balances ->
  book_orphan_splits book' = book_orphan_splits book
  /\ posted_amount (book_transactions book') account
     = posted_amount (book_transactions book) account
       + carried book account_balances account.
Proof.
  intros E Hne Hfound. destruct text as [text|z].
  - destruct (opening_transactions_balances opening_date text currency
                price_db equity_account book account_balances account Hne
                Hfound book eq_refl) as (b & E' & _ & Ho & Hp).
    rewrite E in E'. by injection E' as <-.
  - rewrite opening_transactions_number_run in E.
    destruct (filter _ account_balances) eqn:Hz; [|done].
    injection E as <-. rewrite carried_all_zero by done.
    split; [done | ring].
Qed.

(** X16. After a run that returned, on a previous book that has the two
    equity accounts and in which the lookup of the full name of every
    recorded account gives back this account, the balances are carried
    forward: in the book of the new file, an account below the root other
    than the opening balances account has the balance that it had in the
    previous book if the extractor records it, and zero if not (as for
    the income and expense accounts), each plus the amounts of its splits
    without parent transaction, which the purge has kept. *)
Theorem main_carries_balances previous_file new_file opening_date
    (config : gmap string PyValue) w w' book_prev equity_name
    equity_opening_name equity_account account :
  main previous_file new_file opening_date config w = (Ok tt, w') ->
  w_files w !! previous_file = Some book_prev ->
  config !! "equity_name" = Some (PyStr equity_name) ->
  config !! "equity_opening_name" = Some (PyStr equity_opening_name) ->
  is_Some (lookup_by_full_name book_prev equity_name) ->
  lookup_by_full_name book_prev
    (equity_name +:+ "." +:+ equity_opening_name) = Some equity_account ->
  Forall (fun a => lookup_by_full_name book_prev (get_full_name book_prev a)
                   = Some a)
    (recorded_accounts book_prev) ->
  account ∈ get_descendants book_prev (get_root_account book_prev) ->
  account <> equity_account ->
  exists book_new,
    w_files w' !! new_file = Some book_new
    /\ GetBalance book_new account
       = (if decide (account ∈ recorded_accounts book_prev)
          then GetBalance book_prev account else 0)
         + total (split_amount <$> orphans_of book_prev account).
Proof.
  rewrite main_run, prepare_new_year_file_run.
  intros H Hprev Hc1 Hc2 [p Hp] He Hround Hacc Hne.
  rewrite Hc1, Hc2 in H.
  destruct (config !! "opening_transaction_text") as [text|]; [|done].
  destruct (config !! "currency") as [cur|]; [|done].
  destruct (w_files w !! new_file) eqn:Hnew; [done|].
  rewrite Hprev in H. unfold Session_open in H. simpl in H.
  rewrite lookup_insert_ne in H by congruence. rewrite Hprev in H.
  simpl in H.
  destruct (main_synthesize _ _ _ _ _ _ _) as [book_new|] eqn:Es; [|done].
  injection H as <-. simpl. rewrite lookup_insert_eq.
  exists book_new. split; [done|].
  destruct cur as [currency|z]; [|done].
  set (accounts := get_descendants book_prev (get_root_account book_prev))
    in *.
  destruct (purged_spec accounts book_prev)
    as (Hr & Ho & _ & _ & _ & Hgone).
  rewrite main_synthesize_run_text, main_equity_accounts_run in Es.
  unfold equity_placeholder in Es.
  rewrite (lookup_by_full_name_root _ book_prev) in Es by done.
  rewrite Hp in Es.
  rewrite (lookup_by_full_name_root _ book_prev) in Es by done.
  rewrite He in Es.
  apply (opening_transactions_returned _ _ _ _ _ _ _ account) in Es
    as [Ho' Hp']; [|done|].
  - rewrite (GetBalance_parts book_new), Hp'.
    rewrite (posted_amount_none (book_transactions (purged book_prev accounts)))
      by (intros t Ht; by apply Hgone).
    rewrite (carried_root _ book_prev) by done.
    rewrite carried_snapshot by done. unfold orphans_of.
    rewrite Ho', Ho. destruct (decide _); ring.
  - rewrite Forall_forall. intros [k v] Hin _. simpl.
    apply elem_of_dict_get in Hin as [v' Hv].
    rewrite get_account_balances_get in Hv.
    destruct (last _) as [a|] eqn:Hl; [|done].
    apply last_Some_elem_of, list_elem_of_filter in Hl as [Hn Ha].
    rewrite Forall_forall in Hround.
    rewrite (lookup_by_full_name_root _ book_prev) by done.
    rewrite <- Hn, (Hround _ Ha). eauto.
Qed.

End Program.

(** ** The statements at the book of 2023 *)

(** The account [Equity.Car] is an asset below an equity account; it is
    recorded. *)
Lemma get_account_balances_per_account_witness :
  get_node (book_root book_2023) [2; 1]%nat = Some account_car
  /\ acc_placeholder account_car = false
  /\ (acc_type account_car ∉ ACCOUNT_TYPES_TO_EXCLUDE)
  /\ is_Some (dict_get (get_account_balances "." book_2023) "Equity.Car").
Proof.
  assert (acc_type account_car ∉ ACCOUNT_TYPES_TO_EXCLUDE) as Ht.
  { intros H. repeat (apply elem_of_cons in H as [H|H]; [discriminate|]).
    inversion H. }
  split; [reflexivity|]. split; [reflexivity|]. split; [exact Ht|].
  exact (proj1 (get_account_balances_per_account "." book_2023)
           [2; 1]%nat account_car eq_refl eq_refl Ht).
Defined.

(** C4 does not hold as the specification states it: the split without
    parent transaction is a split of the book of the returned session. *)
Lemma prepare_new_year_file_keeps_orphan_split :
  fst (prepare_new_year_file "." "2023.gnucash" "2024.gnucash"
         world_2023_orphan)
  = Ok (mkSession 0 "2024.gnucash"
          (mkBook root_2023 [] [orphan_split] [EUR; USD] doubling_price_db))
  /\ book_splits
       (mkBook root_2023 [] [orphan_split] [EUR; USD] doubling_price_db)
     = [mkSplitObj None orphan_split]
  /\ book_splits
       (mkBook root_2023 [] [orphan_split] [EUR; USD] doubling_price_db)
     <> [].
Proof.
  split; [vm_compute; reflexivity|]. split; [reflexivity | discriminate].
Qed.

Lemma prepare_new_year_file_purged_witness :
  prepare_new_year_file "." "2023.gnucash" "2024.gnucash" world_2023
  = (Ok (mkSession 0 "2024.gnucash"
           (mkBook root_2023 [] [] [EUR; USD] doubling_price_db)),
     snd (prepare_new_year_file "." "2023.gnucash" "2024.gnucash"
            world_2023))
  /\ w_files world_2023 !! "2023.gnucash" = Some book_2023
  /\ book_transactions
       (mkBook root_2023 [] [] [EUR; USD] doubling_price_db) = []
  /\ book_splits (mkBook root_2023 [] [] [EUR; USD] doubling_price_db) = [].
Proof.
  assert (prepare_new_year_file "." "2023.gnucash" "2024.gnucash" world_2023
          = (Ok (mkSession 0 "2024.gnucash"
                   (mkBook root_2023 [] [] [EUR; USD] doubling_price_db)),
             snd (prepare_new_year_file "." "2023.gnucash" "2024.gnucash"
                    world_2023))) as H1 by (vm_compute; reflexivity).
  assert (w_files world_2023 !! "2023.gnucash" = Some book_2023) as H2
    by reflexivity.
  split; [exact H1|]. split; [exact H2|].
  apply (prepare_new_year_file_purged "." _ _ _ _ _ _ H1 H2); [reflexivity|].
  intros t Ht. apply list_elem_of_In in Ht. simpl in Ht.
  destruct Ht as [<-|[<-|[<-|[]]]];
    [exists [0; 0]%nat | exists [0; 1]%nat | exists [2; 1]%nat];
    (split; [discriminate|]; split; [eexists; reflexivity|];
     eexists; split; [apply list_elem_of_here | reflexivity]).
Defined.

Lemma prepare_new_year_file_target_exists_witness :
  is_Some
    (w_files
       (snd (main "." "2023.gnucash" "2024.gnucash" new_year config_2024
               world_2023)) !! "2024.gnucash")
  /\ prepare_new_year_file "." "2023.gnucash" "2024.gnucash"
       (snd (main "." "2023.gnucash" "2024.gnucash" new_year config_2024
               world_2023))
     = (Raise (FileExistsError "2024.gnucash"),
        snd (main "." "2023.gnucash" "2024.gnucash" new_year config_2024
               world_2023))
  /\ main "." "2023.gnucash" "2024.gnucash" new_year config_2024
       (snd (main "." "2023.gnucash" "2024.gnucash" new_year config_2024
               world_2023))
     = (Raise (FileExistsError "2024.gnucash"),
        snd (main "." "2023.gnucash" "2024.gnucash" new_year config_2024
               world_2023)).
Proof.
  assert (is_Some
            (w_files
               (snd (main "." "2023.gnucash" "2024.gnucash" new_year
                       config_2024 world_2023)) !! "2024.gnucash")) as H
    by (vm_compute; eexists; reflexivity).
  assert (Forall (fun key => is_Some (config_2024 !! key)) config_keys) as Hk
    by (repeat constructor; vm_compute; eexists; reflexivity).
  split; [exact H|].
  destruct (prepare_new_year_file_target_exists "." "2023.gnucash"
              "2024.gnucash" _ H) as [E1 E2].
  split; [exact E1 | exact (E2 new_year config_2024 Hk)].
Defined.

Lemma prepare_new_year_file_orphan_splits_witness :
  w_files world_2023_orphan !! "2024.gnucash" = None
  /\ w_files world_2023_orphan !! "2023.gnucash" = Some book_2023_orphan
  /\ exists session w',
       prepare_new_year_file "." "2023.gnucash" "2024.gnucash"
         world_2023_orphan = (Ok session, w')
       /\ w_log w'
          = ["Split without parent transaction found in account Assets.Checking."]
       /\ book_orphan_splits (session_book session) = [orphan_split]
       /\ forall t, t ∈ transactions_2023 ->
            t ∉ book_transactions (session_book session).
Proof.
  assert (w_files world_2023_orphan !! "2024.gnucash" = None) as H1
    by reflexivity.
  assert (w_files world_2023_orphan !! "2023.gnucash" = Some book_2023_orphan)
    as H2 by reflexivity.
  split; [exact H1|]. split; [exact H2|].
  destruct (prepare_new_year_file_orphan_splits "." "2023.gnucash"
              "2024.gnucash" world_2023_orphan book_2023_orphan H1 H2)
    as (session & w' & E & Hlog & Ho & Hgone).
  exists session, w'. split; [exact E|]. split; [exact Hlog|].
  split; [exact Ho|]. intros t Ht.
  assert (exists account,
            account ∈ get_descendants book_2023_orphan
                        (get_root_account book_2023_orphan)
            /\ posted_in t account) as (account & Ha & Hp).
  { apply list_elem_of_In in Ht. simpl in Ht.
    destruct Ht as [<-|[<-|[<-|[]]]];
      [exists [0; 0]%nat | exists [0; 1]%nat | exists [2; 1]%nat];
      (split; [apply list_elem_of_In; simpl; tauto|];
       eexists; split; [apply list_elem_of_here | reflexivity]). }
  exact (Hgone t account Ht Ha Hp).
Defined.

Lemma main_missing_config_key_witness :
  "currency" ∈ config_keys
  /\ config_no_currency !! "currency" = None
  /\ exists missing,
       missing ∈ config_keys
       /\ config_no_currency !! missing = None
       /\ main "." "2023.gnucash" "2024.gnucash" new_year config_no_currency
            world_2023
          = (Raise (KeyError missing), world_2023).
Proof.
  assert ("currency" ∈ config_keys) as H1
    by (apply list_elem_of_In; simpl; tauto).
  assert (config_no_currency !! "currency" = None) as H2 by reflexivity.
  split; [exact H1|]. split; [exact H2|].
  exact (main_missing_config_key "." "2023.gnucash" "2024.gnucash" new_year
           config_no_currency world_2023 "currency" H1 H2).
Defined.

(** C6 does not hold as the specification states it: the opening name is
    a number, the run raises [TypeError] at the concatenation of the full
    name, and both sessions are open when it does. *)
Lemma main_raises_with_open_sessions :
  fst (main "." "2023.gnucash" "2024.gnucash" new_year config_number
         world_2023) = Raise TypeError
  /\ w_sessions
       (snd (main "." "2023.gnucash" "2024.gnucash" new_year config_number
               world_2023))
     = [mkSessionEntry "2024.gnucash" SESSION_NORMAL_OPEN true;
        mkSessionEntry "2023.gnucash" SESSION_READ_ONLY true].
Proof. split; vm_compute; reflexivity. Qed.

Lemma main_sessions_at_exit_witness :
  main "." "2023.gnucash" "2024.gnucash" new_year config_2024 world_2023
  = (Ok tt,
     snd (main "." "2023.gnucash" "2024.gnucash" new_year config_2024
            world_2023))
  /\ w_sessions
       (snd (main "." "2023.gnucash" "2024.gnucash" new_year config_2024
               world_2023))
     = [mkSessionEntry "2024.gnucash" SESSION_NORMAL_OPEN false;
        mkSessionEntry "2023.gnucash" SESSION_READ_ONLY false].
Proof.
  assert (main "." "2023.gnucash" "2024.gnucash" new_year config_2024
            world_2023
          = (Ok tt,
             snd (main "." "2023.gnucash" "2024.gnucash" new_year config_2024
                    world_2023))) as H by (vm_compute; reflexivity).
  split; [exact H|].
  exact (main_sessions_at_exit "." "2023.gnucash" "2024.gnucash" new_year
           config_2024 world_2023 (Ok tt) _ H).
Defined.

Lemma main_synthesize_reuses_equity_accounts_witness :
  (lookup_by_full_name "." book_2023 "Equity" = Some [2]%nat
   /\ lookup_by_full_name "." book_2023 ("Equity" +:+ "." +:+ "Opening")
      = Some [2; 0]%nat
   /\ main_equity_accounts "." (PyStr "Equity") (PyStr "Opening")
        (table_lookup book_2023 "CURRENCY" "EUR") book_2023
      = Ok (book_2023, [2; 0]%nat))
  /\ (lookup_by_full_name ":" book_2023 "Equity" = Some [2]%nat
      /\ lookup_by_full_name ":" book_2023 ("Equity" +:+ "." +:+ "Opening")
         = None
      /\ main_equity_accounts ":" (PyStr "Equity") (PyStr "Opening")
           (table_lookup book_2023 "CURRENCY" "EUR") book_2023
         = Ok (with_root book_2023
                 (append_child root_2023 [2]%nat
                    (mkAccount "Opening" ACCT_TYPE_EQUITY false (Some EUR)
                       [])),
               [2; 2]%nat))
  /\ (lookup_by_full_name ":" book_flat_equity "Equity" = None
      /\ main_equity_accounts ":" (PyStr "Equity") (PyStr "Opening")
           (table_lookup book_flat_equity "CURRENCY" "EUR") book_flat_equity
         = Ok (with_root book_flat_equity
                 (append_child (book_root book_flat_equity) []
                    (mkAccount "Equity" ACCT_TYPE_EQUITY true None [])),
               [0]%nat)).
Proof.
  assert (lookup_by_full_name "." book_2023 "Equity" = Some [2]%nat) as H1
    by reflexivity.
  assert (lookup_by_full_name "." book_2023 ("Equity" +:+ "." +:+ "Opening")
          = Some [2; 0]%nat) as H2 by reflexivity.
  assert (lookup_by_full_name ":" book_2023 "Equity" = Some [2]%nat) as H3
    by reflexivity.
  assert (lookup_by_full_name ":" book_2023 ("Equity" +:+ "." +:+ "Opening")
          = None) as H4 by reflexivity.
  assert (lookup_by_full_name ":" book_flat_equity "Equity" = None) as H5
    by reflexivity.
  assert (lookup_by_full_name ":"
            (with_root book_flat_equity
               (append_child (book_root book_flat_equity) []
                  (mkAccount "Equity" ACCT_TYPE_EQUITY true None [])))
            ("Equity" +:+ "." +:+ "Opening") = Some [0]%nat) as H6
    by reflexivity.
  destruct (main_synthesize_reuses_equity_accounts "." new_year "Equity"
              "Opening" "Opening balance" "EUR"
              (get_account_balances "." book_2023) book_2023)
    as (P1 & _ & _).
  destruct (main_synthesize_reuses_equity_accounts ":" new_year "Equity"
              "Opening" "Opening balance" "EUR"
              (get_account_balances ":" book_2023) book_2023)
    as (P2 & _ & _).
  destruct (main_synthesize_reuses_equity_accounts ":" new_year "Equity"
              "Opening" "Opening balance" "EUR"
              (get_account_balances ":" book_flat_equity) book_flat_equity)
    as (_ & P3 & _).
  split; [|split].
  - split; [exact H1|]. split; [exact H2|].
    exact (proj1 (P1 _ H1) _ H2).
  - split; [exact H3|]. split; [exact H4|].
    destruct (proj2 (P2 _ H3) H4) as (parent_account & book1 & Hn & E & -> & _).
    injection Hn as <-. exact E.
  - split; [exact H5|]. exact (P3 H5 _ H6).
Defined.

(** The dollars of the book of 2023: the account [Assets.Dollars] is in
    dollars and the account [Equity.Opening] in euros, so the balance of
    10 is carried with the value that the price database makes of it,
    which is 20; the transaction comes after the three that were there and
    the one of the checking account. *)
Lemma main_synthesize_equity_value_witness :
  numeric 10 ≠ 0
  /\ exists book' t,
       main_synthesize "." new_year (PyStr "Equity") (PyStr "Opening")
         (PyStr "Opening balance") (PyStr "EUR")
         ([("Assets.Checking", numeric 470)]
          ++ ("Assets.Dollars", numeric 10) :: [("Equity.Car", numeric 30)])
         book_2023 = Ok book'
       /\ book_transactions book' !! 4%nat = Some t
       /\ trans_splits t
          = [mkSplit (Some [0; 1]%nat) (numeric 10) (numeric 20);
             mkSplit (Some [2; 0]%nat) (- numeric 20) (- numeric 20)].
Proof.
  assert (numeric 10 ≠ 0) as H
    by (apply (bool_decide_unpack _); vm_compute; exact I).
  split; [exact H|].
  destruct (main_synthesize_equity_value "." new_year "Equity" "Opening"
              "Opening balance" "EUR" [("Assets.Checking", numeric 470)]
              ("Assets.Dollars", numeric 10) [("Equity.Car", numeric 30)]
              book_2023 H)
    as (book1 & equity_account & book_i & book' & t & E1 & Ei & E & Hi
        & account & asset_commodity & equity_commodity & equity_value
        & Ha & Hq & Hv & Hs).
  assert (main_equity_accounts "." (PyStr "Equity") (PyStr "Opening")
            (table_lookup book_2023 "CURRENCY" "EUR") book_2023
          = Ok (book_2023, [2; 0]%nat)) as E1' by reflexivity.
  rewrite E1' in E1. injection E1 as <- <-.
  assert (book_root book_i = root_2023) as Hr.
  { vm_compute in Ei. injection Ei as <-. reflexivity. }
  assert (lookup_by_full_name "." book_i "Assets.Dollars" = Some [0; 1]%nat)
    as Hl by (unfold lookup_by_full_name; rewrite Hr; reflexivity).
  cbn [fst snd] in *. rewrite Hl in Ha. destruct Ha as [-> ->].
  assert (equity_value = numeric 20) as ->.
  { rewrite Hv, Hq. unfold GetCommodity. rewrite Hr.
    apply Qc_is_canon. vm_compute. reflexivity. }
  exists book', t. split; [exact E|]. split; [exact Hi | exact Hs].
Defined.

(** The names that the extractor records for the book of 2023: the
    placeholder [Assets] and the income and equity accounts are skipped;
    the account [Assets.Empty], whose balance is zero, and the asset
    [Equity.Car] below the equity account are there. *)
Example get_account_balances_2023 :
  (get_account_balances "." book_2023).*1
  = ["Assets.Checking"; "Assets.Dollars"; "Assets.Empty"; "Equity.Car"].
Proof. vm_compute. reflexivity. Qed.

(** The accounts of the splits of the opening transactions of 2024: one
    transaction for each of the three balances that are not zero, each
    against the account [Equity.Opening] that was there already. *)
Example main_2024_transactions :
  (fun book => (fun t => split_account <$> trans_splits t)
                 <$> book_transactions book)
    <$> (w_files
           (snd (main "." "2023.gnucash" "2024.gnucash" new_year config_2024
                   world_2023)) !! "2024.gnucash")
  = Some [[Some [0; 0]; Some [2; 0]]; [Some [0; 1]; Some [2; 0]];
          [Some [2; 1]; Some [2; 0]]]%nat.
Proof. vm_compute. reflexivity. Qed.


Lemma prepare_new_year_file_keeps_unposted_witness :
  prepare_new_year_file "." "2023.gnucash" "2024.gnucash" world_2023_void
  = (Ok (mkSession 0 "2024.gnucash"
           (mkBook root_2023 [transaction_without_splits] [] [EUR; USD]
              doubling_price_db)),
     snd (prepare_new_year_file "." "2023.gnucash" "2024.gnucash"
            world_2023_void))
  /\ w_files world_2023_void !! "2023.gnucash" = Some book_2023_void
  /\ transaction_without_splits ∈ book_transactions book_2023_void
  /\ transaction_without_splits
     ∈ [transaction_without_splits].
Proof.
  assert (prepare_new_year_file "." "2023.gnucash" "2024.gnucash"
            world_2023_void
          = (Ok (mkSession 0 "2024.gnucash"
                   (mkBook root_2023 [transaction_without_splits] []
                      [EUR; USD] doubling_price_db)),
             snd (prepare_new_year_file "." "2023.gnucash" "2024.gnucash"
                    world_2023_void))) as H1 by (vm_compute; reflexivity).
  assert (w_files world_2023_void !! "2023.gnucash" = Some book_2023_void)
    as H2 by reflexivity.
  assert (transaction_without_splits ∈ book_transactions book_2023_void)
    as H3 by (apply list_elem_of_In; simpl; tauto).
  split; [exact H1|]. split; [exact H2|]. split; [exact H3|].
  apply (prepare_new_year_file_keeps_unposted "." _ _ _ _ _ _ _ H1 H2 H3).
  intros t' Ht' Hg account _ (s & Hs & _).
  apply list_elem_of_In in Ht'. simpl in Ht'.
  destruct Ht' as [<-|[<-|[<-|[<-|[]]]]]; try discriminate Hg.
  inversion Hs.
Defined.

Lemma delete_loops_idempotent_witness :
  for_each (delete_splits_of ".")
    (get_descendants book_2023_orphan (get_root_account book_2023_orphan))
    book_2023_orphan world_2023_orphan
  = (Ok (mkBook root_2023 [] [orphan_split] [EUR; USD] doubling_price_db),
     add_log world_2023_orphan
       ["Split without parent transaction found in account Assets.Checking."])
  /\ for_each (delete_splits_of ".")
       (get_descendants book_2023_orphan (get_root_account book_2023_orphan))
       (mkBook root_2023 [] [orphan_split] [EUR; USD] doubling_price_db)
       (add_log world_2023_orphan
          ["Split without parent transaction found in account Assets.Checking."])
     = (Ok (mkBook root_2023 [] [orphan_split] [EUR; USD] doubling_price_db),
        add_log
          (add_log world_2023_orphan
             ["Split without parent transaction found in account Assets.Checking."])
          (get_descendants book_2023_orphan
             (get_root_account book_2023_orphan)
             ≫= orphan_warnings "." book_2023_orphan)).
Proof.
  assert (for_each (delete_splits_of ".")
            (get_descendants book_2023_orphan
               (get_root_account book_2023_orphan))
            book_2023_orphan world_2023_orphan
          = (Ok (mkBook root_2023 [] [orphan_split] [EUR; USD]
                   doubling_price_db),
             add_log world_2023_orphan
               ["Split without parent transaction found in account Assets.Checking."]))
    as H by (vm_compute; reflexivity).
  split; [exact H|].
  exact (delete_loops_idempotent "." _ _ _ _ _ H).
Defined.

Lemma prepare_new_year_file_previous_missing_witness :
  w_files world_2023 !! "2024.gnucash" = None
  /\ w_files world_2023 !! "2022.gnucash" = None
  /\ prepare_new_year_file "." "2022.gnucash" "2024.gnucash" world_2023
     = (Raise (FileNotFoundError "2022.gnucash"), world_2023)
  /\ main "." "2022.gnucash" "2024.gnucash" new_year config_2024 world_2023
     = (Raise (FileNotFoundError "2022.gnucash"), world_2023).
Proof.
  assert (w_files world_2023 !! "2024.gnucash" = None) as H1 by reflexivity.
  assert (w_files world_2023 !! "2022.gnucash" = None) as H2 by reflexivity.
  assert (Forall (fun key => is_Some (config_2024 !! key)) config_keys) as Hk
    by (repeat constructor; vm_compute; eexists; reflexivity).
  split; [exact H1|]. split; [exact H2|].
  destruct (prepare_new_year_file_previous_missing "." "2022.gnucash"
              "2024.gnucash" world_2023 H1 H2) as [E1 E2].
  split; [exact E1 | exact (E2 new_year config_2024 Hk)].
Defined.

Lemma main_writes_only_new_file_witness :
  main "." "2023.gnucash" "2024.gnucash" new_year config_2024 world_2023
  = (Ok tt,
     snd (main "." "2023.gnucash" "2024.gnucash" new_year config_2024
            world_2023))
  /\ w_files
       (snd (main "." "2023.gnucash" "2024.gnucash" new_year config_2024
               world_2023)) !! "2023.gnucash"
     = w_files world_2023 !! "2023.gnucash".
Proof.
  assert (main "." "2023.gnucash" "2024.gnucash" new_year config_2024
            world_2023
          = (Ok tt,
             snd (main "." "2023.gnucash" "2024.gnucash" new_year config_2024
                    world_2023))) as H by (vm_compute; reflexivity).
  split; [exact H|].
  exact (proj2 (main_writes_only_new_file "." "2023.gnucash" "2024.gnucash"
                  new_year config_2024 world_2023 (Ok tt) _ H)).
Defined.



Lemma main_synthesize_tree_unchanged_witness :
  is_Some (lookup_by_full_name "." book_2023 "Equity")
  /\ is_Some (lookup_by_full_name "." book_2023
                ("Equity" +:+ "." +:+ "Opening"))
  /\ Forall (fun item => item.2 ≠ 0 ->
                         is_Some (lookup_by_full_name "." book_2023 item.1))
       (get_account_balances "." book_2023)
  /\ exists book',
       main_synthesize "." new_year (PyStr "Equity") (PyStr "Opening")
         (PyStr "Opening balance") (PyStr "EUR")
         (get_account_balances "." book_2023) book_2023 = Ok book'
       /\ book_root book' = book_root book_2023.
Proof.
  assert (is_Some (lookup_by_full_name "." book_2023 "Equity")) as H1
    by (eexists; reflexivity).
  assert (is_Some (lookup_by_full_name "." book_2023
                     ("Equity" +:+ "." +:+ "Opening"))) as H2
    by (eexists; reflexivity).
  assert (Forall (fun item => item.2 ≠ 0 ->
                    is_Some (lookup_by_full_name "." book_2023 item.1))
            (get_account_balances "." book_2023)) as H3.
  { apply (bool_decide_unpack _). vm_compute. exact I. }
  split; [exact H1|]. split; [exact H2|]. split; [exact H3|].
  exact (main_synthesize_tree_unchanged "." new_year "Equity" "Opening"
           "Opening balance" "EUR" _ book_2023 H1 H2 H3).
Defined.

Lemma main_opening_transaction_creates_account_witness :
  numeric 25 ≠ 0
  /\ lookup_by_full_name "." book_2023 "Assets.Savings" = None
  /\ exists book' t,
       main_opening_transaction "." new_year (PyStr "Opening balance")
         (Some EUR) doubling_price_db [2; 0]%nat book_2023
         ("Assets.Savings", numeric 25) = Ok book'
       /\ acc_children (book_root book')
          = acc_children (book_root book_2023)
            ++ [mkAccount "Assets.Savings" ACCT_TYPE_NONE false None []]
       /\ book_transactions book' = book_transactions book_2023 ++ [t]
       /\ trans_splits t
          = [mkSplit (Some [length (acc_children (book_root book_2023))])
               (numeric 25)
               (equity_value_of doubling_price_db new_year (numeric 25) None
                  (GetCommodity book' [2; 0]%nat));
             mkSplit (Some [2; 0]%nat)
               (- equity_value_of doubling_price_db new_year (numeric 25)
                    None (GetCommodity book' [2; 0]%nat))
               (- equity_value_of doubling_price_db new_year (numeric 25)
                    None (GetCommodity book' [2; 0]%nat))].
Proof.
  assert (numeric 25 ≠ 0) as H1 by discriminate.
  assert (lookup_by_full_name "." book_2023 "Assets.Savings" = None) as H2
    by reflexivity.
  split; [exact H1|]. split; [exact H2|].
  exact (main_opening_transaction_creates_account "." new_year
           "Opening balance" (Some EUR) doubling_price_db [2; 0]%nat
           book_2023 "Assets.Savings" (numeric 25) H1 H2).
Defined.

Lemma main_new_file_witness :
  main "." "2023.gnucash" "2024.gnucash" new_year config_2024 world_2023
  = (Ok tt,
     snd (main "." "2023.gnucash" "2024.gnucash" new_year config_2024
            world_2023))
  /\ w_files world_2023 !! "2023.gnucash" = Some book_2023
  /\ exists book_new equity_account kept created,
       w_files
         (snd (main "." "2023.gnucash" "2024.gnucash" new_year config_2024
                 world_2023)) !! "2024.gnucash" = Some book_new
       /\ tree_extends (book_root book_2023) (book_root book_new)
       /\ book_orphan_splits book_new = book_orphan_splits book_2023
       /\ book_transactions book_new = kept ++ created
       /\ (forall t, t ∈ kept ->
             t ∈ book_transactions book_2023
             /\ forall account,
                  account ∈ get_descendants book_2023
                              (get_root_account book_2023) ->
                  ~ posted_in t account)
       /\ Forall2
            (fun item t =>
               exists account equity_value,
                 trans_splits t
                 = [mkSplit (Some account) item.2 equity_value;
                    mkSplit (Some equity_account) (- equity_value)
                      (- equity_value)])
            (filter (fun item => item.2 ≠ 0)
               (get_account_balances "." book_2023))
            created.
Proof.
  assert (main "." "2023.gnucash" "2024.gnucash" new_year config_2024
            world_2023
          = (Ok tt,
             snd (main "." "2023.gnucash" "2024.gnucash" new_year config_2024
                    world_2023))) as H1 by (vm_compute; reflexivity).
  assert (w_files world_2023 !! "2023.gnucash" = Some book_2023) as H2
    by reflexivity.
  split; [exact H1|]. split; [exact H2|].
  exact (main_new_file "." "2023.gnucash" "2024.gnucash" new_year config_2024
           world_2023 _ book_2023 H1 H2).
Defined.

Lemma main_synthesize_adds_balances_witness :
  main_equity_accounts "." (PyStr "Equity") (PyStr "Opening")
    (table_lookup book_2023 "CURRENCY" "EUR") book_2023
  = Ok (book_2023, [2; 0]%nat)
  /\ Forall (fun item => item.2 ≠ 0 ->
                         is_Some (lookup_by_full_name "." book_2023 item.1))
       [("Assets.Checking", numeric 5); ("Assets.Dollars", numeric 0)]
  /\ [0; 0]%nat <> [2; 0]%nat
  /\ exists book',
       main_synthesize "." new_year (PyStr "Equity") (PyStr "Opening")
         (PyStr "Opening balance") (PyStr "EUR")
         [("Assets.Checking", numeric 5); ("Assets.Dollars", numeric 0)]
         book_2023 = Ok book'
       /\ GetBalance book' [0; 0]%nat
          = GetBalance book_2023 [0; 0]%nat
            + carried "." book_2023
                [("Assets.Checking", numeric 5); ("Assets.Dollars", numeric 0)]
                [0; 0]%nat.
Proof.
  assert (main_equity_accounts "." (PyStr "Equity") (PyStr "Opening")
            (table_lookup book_2023 "CURRENCY" "EUR") book_2023
          = Ok (book_2023, [2; 0]%nat)) as H1 by reflexivity.
  assert (Forall (fun item => item.2 ≠ 0 ->
                    is_Some (lookup_by_full_name "." book_2023 item.1))
            [("Assets.Checking", numeric 5); ("Assets.Dollars", numeric 0)])
    as H2.
  { apply (bool_decide_unpack _). vm_compute. exact I. }
  assert ([0; 0]%nat <> [2; 0]%nat) as H3 by discriminate.
  split; [exact H1|]. split; [exact H2|]. split; [exact H3|].
  exact (main_synthesize_adds_balances "." new_year "Equity" "Opening"
           "Opening balance" "EUR" _ book_2023 book_2023 [2; 0]%nat
           [0; 0]%nat H1 H2 H3).
Defined.

(** The checking account of the book with the split without parent
    transaction: its balance is carried forward, and the split, which is
    part of that balance, is there once more. *)
Lemma main_carries_balances_witness :
  main "." "2023.gnucash" "2024.gnucash" new_year config_2024
    world_2023_orphan
  = (Ok tt,
     snd (main "." "2023.gnucash" "2024.gnucash" new_year config_2024
            world_2023_orphan))
  /\ w_files world_2023_orphan !! "2023.gnucash" = Some book_2023_orphan
  /\ config_2024 !! "equity_name" = Some (PyStr "Equity")
  /\ config_2024 !! "equity_opening_name" = Some (PyStr "Opening")
  /\ is_Some (lookup_by_full_name "." book_2023_orphan "Equity")
  /\ lookup_by_full_name "." book_2023_orphan ("Equity" +:+ "." +:+ "Opening")
     = Some [2; 0]%nat
  /\ Forall (fun a => lookup_by_full_name "." book_2023_orphan
                        (get_full_name "." book_2023_orphan a) = Some a)
       (recorded_accounts book_2023_orphan)
  /\ [0; 0]%nat ∈ get_descendants book_2023_orphan
                    (get_root_account book_2023_orphan)
  /\ [0; 0]%nat <> [2; 0]%nat
  /\ exists book_new,
       w_files
         (snd (main "." "2023.gnucash" "2024.gnucash" new_year config_2024
                 world_2023_orphan)) !! "2024.gnucash" = Some book_new
       /\ GetBalance book_new [0; 0]%nat
          = (if decide ([0; 0]%nat ∈ recorded_accounts book_2023_orphan)
             then GetBalance book_2023_orphan [0; 0]%nat else 0)
            + total (split_amount
                       <$> orphans_of book_2023_orphan [0; 0]%nat).
Proof.
  assert (main "." "2023.gnucash" "2024.gnucash" new_year config_2024
            world_2023_orphan
          = (Ok tt,
             snd (main "." "2023.gnucash" "2024.gnucash" new_year config_2024
                    world_2023_orphan))) as H1 by (vm_compute; reflexivity).
  assert (w_files world_2023_orphan !! "2023.gnucash"
          = Some book_2023_orphan) as H2 by reflexivity.
  assert (config_2024 !! "equity_name" = Some (PyStr "Equity")) as H3
    by reflexivity.
  assert (config_2024 !! "equity_opening_name" = Some (PyStr "Opening"))
    as H4 by reflexivity.
  assert (is_Some (lookup_by_full_name "." book_2023_orphan "Equity")) as H5
    by (eexists; reflexivity).
  assert (lookup_by_full_name "." book_2023_orphan
            ("Equity" +:+ "." +:+ "Opening") = Some [2; 0]%nat) as H6
    by reflexivity.
  assert (Forall (fun a => lookup_by_full_name "." book_2023_orphan
                             (get_full_name "." book_2023_orphan a) = Some a)
            (recorded_accounts book_2023_orphan)) as H7.
  { apply (bool_decide_unpack _). vm_compute. exact I. }
  assert ([0; 0]%nat ∈ get_descendants book_2023_orphan
                         (get_root_account book_2023_orphan)) as H8
    by (apply list_elem_of_In; simpl; tauto).
  assert ([0; 0]%nat <> [2; 0]%nat) as H9 by discriminate.
  split; [exact H1|]. split; [exact H2|]. split; [exact H3|].
  split; [exact H4|]. split; [exact H5|]. split; [exact H6|].
  split; [exact H7|]. split; [exact H8|]. split; [exact H9|].
  exact (main_carries_balances "." "2023.gnucash" "2024.gnucash" new_year
           config_2024 world_2023_orphan _ book_2023_orphan "Equity" "Opening"
           [2; 0]%nat [0; 0]%nat H1 H2 H3 H4 H5 H6 H7 H8 H9).
Defined.

(** In numbers: the checking account had 471, of which 1 in the split
    without parent transaction; it has 472 in the book of 2024.  The
    income account, which is not recorded, had -520 and has 0. *)
Example main_2024_balances :
  (fun book => (bool_decide (GetBalance book [0; 0]%nat = numeric 472),
                bool_decide (GetBalance book [1; 0]%nat = numeric 0)))
    <$> (w_files
           (snd (main "." "2023.gnucash" "2024.gnucash" new_year config_2024
                   world_2023_orphan)) !! "2024.gnucash")
  = Some (true, true)
  /\ bool_decide (GetBalance book_2023_orphan [0; 0]%nat = numeric 471) = true
  /\ bool_decide (GetBalance book_2023_orphan [1; 0]%nat = numeric (-520))
     = true.
Proof. split; [|split]; vm_compute; reflexivity. Qed.
